(** * Meteor to-do list: method layer, publication and client view

    A shallow embedding of the task methods ([tasks.insert], [tasks.remove],
    [tasks.setChecked]), of the [tasks] publication and of the [App]
    component's data container and [renderTasks].

    Documents are finite maps from field names to JavaScript values; a
    collection is a finite map from [_id] to document.  Method bodies run in
    a small state-and-exception monad over the server's collections.

    What the code takes from Meteor is modelled as Meteor documents it:
    [check] against [String] and [Boolean]; selectors [{}], [{f: v}],
    [{f: {$ne: v}}] and [$or] on scalar fields; [$set]; [insert] with an
    [_id] drawn by [Random.id()]; the sort order of values.  Values are
    scalars (no arrays or nested objects), numbers are integers, and
    document ids are strings.  The clock and the drawn id are inputs of a
    method run. *)

From Stdlib Require Import ZArith Sorting.Sorted.
From stdpp Require Import gmap strings list fin_maps sorting.

Local Open Scope Z_scope.

(** ** JavaScript values *)

Module JS.

(** The values that occur as method arguments and document fields.
    Numbers are integer valued; a [Date] is its millisecond time stamp. *)
Inductive value : Type :=
| VUndefined
| VNull
| VBool (b : bool)
| VNumber (n : Z)
| VString (s : string)
| VDate (ms : Z).

#[global] Instance value_eq_dec : EqDecision value.
Proof. solve_decision. Defined.

(** [ToBoolean]: what [!x] and [x ? a : b] test. *)
Definition truthy (v : value) : bool :=
  match v with
  | VUndefined | VNull => false
  | VBool b => b
  | VNumber n => negb (n =? 0)
  | VString s => negb (String.eqb s "")
  | VDate _ => true
  end.

(** [a === b].  Two [Date] objects are distinct references. *)
Definition strict_eq (a b : value) : bool :=
  match a, b with
  | VUndefined, VUndefined => true
  | VNull, VNull => true
  | VBool x, VBool y => Bool.eqb x y
  | VNumber x, VNumber y => x =? y
  | VString x, VString y => String.eqb x y
  | _, _ => false
  end.

(** [typeof v === 'string'] and [typeof v === 'boolean']. *)
Definition is_String (v : value) : bool :=
  match v with VString _ => true | _ => false end.

Definition is_Boolean (v : value) : bool :=
  match v with VBool _ => true | _ => false end.

End JS.
Export JS.

(** ** Documents, selectors and cursors *)

Module Mongo.

(** A document: field name to value. *)
Abbreviation doc := (gmap string value).

(** A collection, keyed by the documents' [_id]. *)
Abbreviation collection := (gmap string doc).

(** Property read [d.f]: a missing field reads as [undefined]. *)
Definition get (d : doc) (f : string) : value :=
  default VUndefined (d !! f).

(** Value equality used by selectors: by type and content, dates by
    their time stamp. *)
Definition equal (a b : value) : bool := bool_decide (a = b).

(** A field that is absent or [undefined] matches [null]. *)
Definition nullish (v : value) : bool :=
  match v with
  | VUndefined | VNull => true
  | _ => false
  end.

(** [{f: v}] on a scalar field. *)
Definition field_eq (d : doc) (f : string) (v : value) : bool :=
  if nullish v then nullish (get d f) else equal (get d f) v.

(** The selectors this application writes. *)
#[warnings="-register-all"]
Inductive selector : Type :=
| SelAll                                   (* {} *)
| SelEq (f : string) (v : value)           (* {f: v} *)
| SelNe (f : string) (v : value)           (* {f: {$ne: v}} *)
| SelOr (alts : list selector).            (* {$or: [...]} *)

Fixpoint matches (s : selector) (d : doc) : bool :=
  match s with
  | SelAll => true
  | SelEq f v => field_eq d f v
  | SelNe f v => negb (field_eq d f v)
  | SelOr alts => existsb (fun a => matches a d) alts
  end.

(** Sort order of values: first by type, then within the type. *)
Definition typeorder (v : value) : Z :=
  match v with
  | VUndefined => -1
  | VNull => 0
  | VNumber _ => 1
  | VString _ => 2
  | VBool _ => 7
  | VDate _ => 8
  end.

Definition value_le (a b : value) : bool :=
  match a, b with
  | VNumber x, VNumber y => x <=? y
  | VString x, VString y => String.leb x y
  | VBool x, VBool y => implb x y
  | VDate x, VDate y => x <=? y
  | _, _ => typeorder a <=? typeorder b
  end.

(** [d1] may precede [d2] under [{sort: {f: -1}}]. *)
Definition desc_by (f : string) (d1 d2 : doc) : bool :=
  value_le (get d2 f) (get d1 f).

Definition desc_rel (f : string) : relation doc :=
  fun d1 d2 => desc_by f d1 d2 = true.

(** Insertion of [d] into a list sorted by [f], descending: [d] goes
    before the first document it may precede, so that the sort below is
    stable. *)
Fixpoint insert_desc (f : string) (d : doc) (l : list doc) : list doc :=
  match l with
  | [] => [d]
  | e :: l' =>
      if desc_by f d e then d :: e :: l' else e :: insert_desc f d l'
  end.

Definition sort_desc (f : string) (l : list doc) : list doc :=
  foldr (insert_desc f) [] l.

(** [find(sel).fetch()], [find(sel, {sort: {f: -1}}).fetch()] and
    [find(sel).count()] over the documents of a client-side cache, given
    in its iteration order. *)
Definition find (sel : selector) (docs : list doc) : list doc :=
  List.filter (matches sel) docs.

Definition find_sorted_desc (sel : selector) (f : string)
    (docs : list doc) : list doc :=
  sort_desc f (find sel docs).

Definition count (sel : selector) (docs : list doc) : nat :=
  length (find sel docs).

(** Server side [find(sel)] on a collection: the matching documents. *)
Definition find_coll (sel : selector) (c : collection) : collection :=
  filter (fun kv => matches sel kv.2 = true) c.

End Mongo.
Export Mongo.

(** ** The server: collections, method invocations, errors *)

Module Meteor.

(** The two collections the methods touch. *)
Record server : Type := Server {
  Tasks : collection;      (* new Mongo.Collection('tasks') *)
  users : collection       (* Meteor.users *)
}.

(** [this] of a method or publish handler: [userId] is [null] (here
    [None]) when nobody is logged in on the connection. *)
Record invocation : Type := Invocation { userId : option string }.

(** What a method run reads from outside the store: the clock behind
    [new Date()] and the identifier drawn by [Random.id()]. *)
Record env : Type := Env { now : Z; random_id : string }.

Inductive error : Type :=
| MatchError                    (* check() failed *)
| MeteorError (kind : string)   (* new Meteor.Error(kind) *)
| TypeError                     (* property read on undefined *)
| DuplicateKey.                 (* insert on an _id already in use *)

#[global] Instance error_eq_dec : EqDecision error.
Proof. solve_decision. Defined.

Inductive outcome (A : Type) : Type :=
| Ok (a : A)
| Throw (e : error).
Arguments Ok {A} a.
Arguments Throw {A} e.

(** Method bodies: state passing with exceptions; a throw keeps the
    store as it is at that point. *)
Definition M (A : Type) : Type := server -> outcome A * server.

Definition ret {A} (a : A) : M A := fun s => (Ok a, s).
Definition throw {A} (e : error) : M A := fun s => (Throw e, s).
Definition bind {A B} (m : M A) (k : A -> M B) : M B :=
  fun s =>
    match m s with
    | (Ok a, s') => k a s'
    | (Throw e, s') => (Throw e, s')
    end.

Notation "x <- m ;; k" := (bind m (fun x => k))
  (at level 100, m at next level, right associativity).
Notation "m ;;; k" := (bind m (fun _ => k))
  (at level 100, right associativity).

(** [this.userId] as a value. *)
Definition userId_value (this : invocation) : value :=
  match userId this with
  | None => VNull
  | Some u => VString u
  end.

(** [check(v, String)] and [check(v, Boolean)]. *)
Inductive pattern : Type := String_ | Boolean_.

Definition conforms (v : value) (p : pattern) : bool :=
  match p with
  | String_ => is_String v
  | Boolean_ => is_Boolean v
  end.

Definition check (v : value) (p : pattern) : M unit :=
  if conforms v p then ret tt else throw MatchError.

(** An object literal as a stored document: a field whose value is
    [undefined] is not stored. *)
Definition object (fields : list (string * value)) : doc :=
  foldr (fun fv d => if bool_decide (fv.2 = VUndefined) then d
                     else <[fv.1 := fv.2]> d) ∅ fields.

(** [Tasks.insert(d)]: the document gets the drawn [_id]; an [_id]
    already in use is refused. *)
Definition Tasks_insert (e : env) (d : doc) : M string :=
  fun s =>
    match Tasks s !! random_id e with
    | Some _ => (Throw DuplicateKey, s)
    | None =>
        (Ok (random_id e),
         Server (<[random_id e := <["_id" := VString (random_id e)]> d]> (Tasks s))
                (users s))
    end.

(** [Tasks.remove(id)] with a string selector. *)
Definition Tasks_remove (id : string) : M unit :=
  fun s => (Ok tt, Server (delete id (Tasks s)) (users s)).

(** [Tasks.update(id, {$set: {f: v}})]: no document, no effect. *)
Definition Tasks_update_set (id f : string) (v : value) : M unit :=
  fun s => (Ok tt, Server (alter (<[f := v]>) id (Tasks s)) (users s)).

(** [Meteor.users.findOne(id)]: [None] is [undefined]. *)
Definition users_findOne (id : value) : M (option doc) :=
  fun s =>
    (Ok (match id with
         | VString u => users s !! u
         | _ => None
         end), s).

(** [o.f] on the result of a [findOne]. *)
Definition prop (o : option doc) (f : string) : M value :=
  match o with
  | None => throw TypeError
  | Some d => ret (get d f)
  end.

(** *** Meteor.methods *)

Definition tasks_insert (this : invocation) (e : env) (text : value) : M unit :=
  check text String_ ;;;
  (if negb (truthy (userId_value this))
   then throw (MeteorError "not-authorized")
   else ret tt) ;;;
  let createdAt := VDate (now e) in
  let owner := userId_value this in
  u <- users_findOne (userId_value this) ;;
  username <- prop u "username" ;;
  _ <- Tasks_insert e (object [("text", text); ("createdAt", createdAt);
                               ("owner", owner); ("username", username)]) ;;
  ret tt.

Definition tasks_remove (this : invocation) (taskId : value) : M unit :=
  check taskId String_ ;;;
  match taskId with
  | VString id => Tasks_remove id
  | _ => ret tt                  (* not reached: check has thrown *)
  end.

Definition tasks_setChecked (this : invocation) (taskId setChecked : value)
    : M unit :=
  check taskId String_ ;;;
  check setChecked Boolean_ ;;;
  match taskId with
  | VString id => Tasks_update_set id "checked" setChecked
  | _ => ret tt                  (* not reached: check has thrown *)
  end.

(** A remote call to one of the three methods. *)
Inductive call : Type :=
| Insert (this : invocation) (e : env) (text : value)
| Remove (this : invocation) (taskId : value)
| SetChecked (this : invocation) (taskId setChecked : value).

Definition apply_call (c : call) : M unit :=
  match c with
  | Insert this e text => tasks_insert this e text
  | Remove this taskId => tasks_remove this taskId
  | SetChecked this taskId v => tasks_setChecked this taskId v
  end.

(** Calls are served one after the other; a failed call leaves the
    store to the next one as it stands. *)
Definition run_calls (cs : list call) (s : server) : server :=
  foldl (fun s c => (apply_call c s).2) s cs.

(** [c] is a well-typed [tasks.remove] of the task [id]. *)
Definition removes (id : string) (c : call) : bool :=
  match c with
  | Remove _ (VString id') => bool_decide (id' = id)
  | _ => false
  end.

(** *** Meteor.publish('tasks') *)

Definition tasks_selector (this : invocation) : selector :=
  SelOr [SelNe "private" (VBool true); SelEq "owner" (userId_value this)].

Definition tasksPublication (this : invocation) (s : server) : collection :=
  find_coll (tasks_selector this) (Tasks s).

End Meteor.
Export Meteor.

(** ** The client: data container and component *)

Module App.

(** What [Meteor.user()] gives: [null] when logged out, [undefined]
    while the user's document is not in the local cache, else the
    document. *)
Inductive user_ref : Type :=
| UserNull
| UserUndefined
| UserDoc (d : doc).

(** The client's local cache: the published tasks in iteration order,
    the user documents, and the connection's user id. *)
Record client : Type := Client {
  cached_tasks : list doc;
  cached_users : collection;
  client_userId : option string
}.

(** [Meteor.user()]: [userId ? users.findOne(userId) : null]. *)
Definition Meteor_user (c : client) : user_ref :=
  match client_userId c with
  | None => UserNull
  | Some u =>
      if truthy (VString u)
      then match cached_users c !! u with
           | Some d => UserDoc d
           | None => UserUndefined
           end
      else UserNull
  end.

(** The props handed to [App]. *)
Record props : Type := Props {
  tasks : list doc;
  incompleteCount : nat;
  currentUser : user_ref
}.

(** The function given to [withTracker]. *)
Definition withTracker (c : client) : props :=
  {| tasks := find_sorted_desc SelAll "createdAt" (cached_tasks c);
     incompleteCount := count (SelNe "checked" (VBool true)) (cached_tasks c);
     currentUser := Meteor_user c |}.

(** [<Task showPrivateButton=.. key=.. task=.. />]. *)
Record element : Type := Task {
  showPrivateButton : bool;
  key : value;
  task : doc
}.

(** [currentUser && currentUser._id]: an object is truthy, [null] and
    [undefined] are returned as they are. *)
Definition currentUserId (cu : user_ref) : value :=
  match cu with
  | UserNull => VNull
  | UserUndefined => VUndefined
  | UserDoc d => get d "_id"
  end.

(** [task => hideCompleted ? !task.checked : true]. *)
Definition shown (hideCompleted : bool) (t : doc) : bool :=
  if hideCompleted then negb (truthy (get t "checked")) else true.

(** The data model's typing of [checked]: a boolean when present. *)
Definition checked_is_boolean (t : doc) : bool :=
  match t !! "checked" with
  | None => true
  | Some v => is_Boolean v
  end.

Definition renderTasks (p : props) (hideCompleted : bool) : list element :=
  let currentUserId := currentUserId (currentUser p) in
  map (fun t => {| showPrivateButton := strict_eq (get t "owner") currentUserId;
                   key := get t "_id";
                   task := t |})
      (List.filter (shown hideCompleted) (tasks p)).

End App.
Export App.

(** ** Sample data *)

Module Sample.

Definition alice : invocation := Invocation (Some "alice").
Definition bob : invocation := Invocation (Some "bob").
Definition anonymous : invocation := Invocation None.

Definition alice_user : doc :=
  object [("_id", VString "alice"); ("username", VString "alice")].

(** A private task of alice, not checked yet. *)
Definition secret : doc :=
  object [("_id", VString "t1"); ("text", VString "call the bank");
          ("createdAt", VDate 1000); ("owner", VString "alice");
          ("username", VString "alice"); ("private", VBool true)].

(** A later task of bob, done. *)
Definition errand : doc :=
  object [("_id", VString "t2"); ("text", VString "buy milk");
          ("createdAt", VDate 2000); ("owner", VString "bob");
          ("username", VString "bob"); ("checked", VBool true)].

Definition store : server :=
  Server (<["t1" := secret]> (<["t2" := errand]> ∅))
         (<["alice" := alice_user]> ∅).

Definition empty_store : server := Server ∅ (<["alice" := alice_user]> ∅).

(** The clock reads 3000 and [Random.id()] draws [t3]. *)
Definition draw : env := Env 3000 "t3".

Definition browser : client :=
  Client [secret; errand] (<["alice" := alice_user]> ∅) (Some "alice").

End Sample.

(** ** The component's local state and handlers *)

Module Component.

(** [useState('')] and [useState(false)]. *)
Record local : Type := Local { text : string; hideCompleted : bool }.

Definition initial : local := {| text := ""; hideCompleted := false |}.

(** [onChange={e => setText(e.target.value)}]. *)
Definition onChange (value : string) (st : local) : local :=
  {| text := value; hideCompleted := hideCompleted st |}.

(** [onClick={() => setHideCompleted((prev) => !prev)}]. *)
Definition onClick (st : local) : local :=
  {| text := text st; hideCompleted := negb (hideCompleted st) |}.

(** [handleSubmit]: [Meteor.call('tasks.insert', text)] on the client's
    connection; the local state is not touched. *)
Definition handleSubmit (st : local) (this : invocation) (e : env) : call :=
  Insert this e (VString (text st)).

(** What the user does to the page. *)
Inductive event : Type :=
| Typed (value : string)
| Clicked
| Submitted (e : env).

(** One event on the connection [this]: the next local state and the
    method calls sent. *)
Definition handle (this : invocation) (ev : event) (st : local)
    : local * list call :=
  match ev with
  | Typed value => (onChange value st, [])
  | Clicked => (onClick st, [])
  | Submitted e => (st, [handleSubmit st this e])
  end.

Fixpoint handle_all (this : invocation) (evs : list event) (st : local)
    : local * list call :=
  match evs with
  | [] => (st, [])
  | ev :: evs' =>
      let '(st1, sent1) := handle this ev st in
      let '(st2, sent2) := handle_all this evs' st1 in
      (st2, sent1 ++ sent2)
  end.

(** [{currentUser && <form ...>}]: the form is there for a user object. *)
Definition form_rendered (p : props) : bool :=
  match currentUser p with
  | UserDoc _ => true
  | UserNull | UserUndefined => false
  end.

(** The list under the header, for the props and the local state. *)
Definition rendered (p : props) (st : local) : list element :=
  renderTasks p (hideCompleted st).

End Component.

(** ** The test of the method layer *)

Module TasksTest.

(** [Tasks.remove({})]: every document goes. *)
Definition Tasks_remove_all : M unit :=
  fun s => (Ok tt, Server ∅ (users s)).

(** [Tasks.find().count()] on the server. *)
Definition Tasks_count : M nat :=
  fun s => (Ok (size (Tasks s)), s).

(** [beforeEach]: empty the collection and insert the test task; the
    result is [taskId]. *)
Definition beforeEach (userId : string) (e : env) : M string :=
  Tasks_remove_all ;;;
  Tasks_insert e (object [("text", VString "test task");
                          ("createdAt", VDate (now e));
                          ("owner", VString userId);
                          ("username", VString "tmeasday")]).

(** [it('can delete owned task')]: the handler of [tasks.remove] run with
    [this = { userId }] on [taskId]; the result is what
    [assert.equal(Tasks.find().count(), 0)] compares. *)
Definition can_delete_owned_task (userId taskId : string) : M bool :=
  let deleteTask := tasks_remove in
  let invocation := Invocation (Some userId) in
  deleteTask invocation (VString taskId) ;;;
  n <- Tasks_count ;;
  ret (Nat.eqb n 0).

Definition run_test (userId : string) (e : env) : M bool :=
  taskId <- beforeEach userId e ;;
  can_delete_owned_task userId taskId.

End TasksTest.

(** ** Shapes of stored tasks *)

Module Shape.

Definition is_Date (v : value) : bool :=
  match v with VDate _ => true | _ => false end.

(** A task as [tasks.insert] builds it and [tasks.setChecked] keeps it:
    a String [text], a Date [createdAt], a non-empty String [owner], no
    [private], and [checked] a boolean when present. *)
Definition method_made (d : doc) : bool :=
  is_String (get d "text")
  && is_Date (get d "createdAt")
  && is_String (get d "owner") && truthy (get d "owner")
  && bool_decide (d !! "private" = None)
  && checked_is_boolean d.

(** The document stored under [id] carries [id] as its [_id]. *)
Definition id_matches (id : string) (d : doc) : Prop :=
  get d "_id" = VString id.

End Shape.

(** ** A settled subscription *)

Module Subscription.

(** The documents a cursor over the publication yields. *)
Definition published_docs (this : invocation) (s : server) : list doc :=
  (map_to_list (tasksPublication this s)).*2.

(** [Meteor.subscribe('tasks')], once the server has sent everything: the
    client's cache holds the documents published to its connection, in
    some order, and the client knows the connection's user id. *)
Definition in_sync (c : client) (this : invocation) (s : server) : Prop :=
  cached_tasks c ≡ₚ published_docs this s
  /\ client_userId c = userId this.

End Subscription.

(** ** Who makes a call *)

Module Calls.

(** The [this] a call's handler runs with. *)
Definition caller (c : call) : invocation :=
  match c with
  | Insert this _ _ => this
  | Remove this _ => this
  | SetChecked this _ _ => this
  end.

(** The call comes over a connection with nobody logged in. *)
Definition logged_out (c : call) : bool :=
  negb (truthy (userId_value (caller c))).

End Calls.

(** * Properties *)

(** ** Publication *)

Section Publication.

Lemma matches_tasks_selector this d :
  matches (tasks_selector this) d
  = negb (field_eq d "private" (VBool true))
    || field_eq d "owner" (userId_value this).
Proof. simpl. by rewrite orb_false_r. Qed.

Lemma field_eq_true_iff d f v :
  nullish v = false -> field_eq d f v = true <-> get d f = v.
Proof.
  intros Hv. unfold field_eq, equal. rewrite Hv.
  by rewrite bool_decide_eq_true.
Qed.

Lemma published_lookup this s id :
  tasksPublication this s !! id
  = d ← Tasks s !! id; if matches (tasks_selector this) d then Some d else None.
Proof.
  unfold tasksPublication, find_coll.
  generalize (tasks_selector this) as sel; intros sel.
  rewrite map_lookup_filter. destruct (Tasks s !! id) as [d|]; [|done].
  cbn [mbind option_bind].
  destruct (matches sel d) eqn:E.
  - by rewrite option_guard_True.
  - rewrite option_guard_False; [done|]. cbn [snd]. by rewrite E.
Qed.

(** A record whose [private] is not [true] goes to every connection. *)
Lemma published_not_private this s id (d : doc) :
  Tasks s !! id = Some d -> get d "private" <> VBool true ->
  tasksPublication this s !! id = Some d.
Proof.
  intros Hd Hp. rewrite published_lookup, Hd.
  cbn [mbind option_bind]. rewrite matches_tasks_selector.
  destruct (field_eq d "private" (VBool true)) eqn:E; [|done].
  apply field_eq_true_iff in E; done.
Qed.

End Publication.

(** C1: a task with [private = true] owned by [a] is published to a
    connection exactly when its user id is [a] (so not to any other user,
    nor to a logged-out connection); a task whose [private] is not [true]
    is published to every connection. *)
Theorem publish_filter_visibility (s : server) (id : string) (d : doc)
    (Hd : Tasks s !! id = Some d) :
  (forall a : string,
      get d "private" = VBool true -> get d "owner" = VString a ->
      (forall this, userId this <> Some a -> tasksPublication this s !! id = None)
      /\ (forall this, userId this = Some a -> tasksPublication this s !! id = Some d))
  /\ (get d "private" <> VBool true ->
      forall this, tasksPublication this s !! id = Some d).
Proof.
  split.
  - intros a Hp Ho. split; intros this Hu; rewrite published_lookup, Hd;
      cbn [mbind option_bind]; rewrite matches_tasks_selector.
    + assert (field_eq d "private" (VBool true) = true) as ->
        by (by apply field_eq_true_iff).
      simpl. destruct (field_eq d "owner" (userId_value this)) eqn:E; [|done].
      exfalso. unfold userId_value in E. destruct (userId this) as [b|].
      * apply field_eq_true_iff in E; [|done]. congruence.
      * unfold field_eq in E. simpl in E. by rewrite Ho in E.
    + assert (field_eq d "owner" (userId_value this) = true) as ->.
      { unfold userId_value. rewrite Hu. by apply field_eq_true_iff. }
      by rewrite orb_true_r.
  - intros Hp this. by apply published_not_private.
Qed.

(** ** Method layer *)

Section Methods.

Implicit Types (s : server) (this : invocation) (e : env).

(** The document [tasks.insert] hands to the collection. *)
Lemma object_task_fields (text owner username : value) (t : Z) (f : string) :
  text <> VUndefined -> owner <> VUndefined ->
  let d := object [("text", text); ("createdAt", VDate t);
                   ("owner", owner); ("username", username)] in
  get d "text" = text /\ get d "createdAt" = VDate t
  /\ get d "owner" = owner /\ get d "username" = username
  /\ (f <> "text" -> f <> "createdAt" -> f <> "owner" -> f <> "username" ->
      d !! f = None).
Proof.
  intros Ht Ho. unfold object, get. cbn [foldr fst snd].
  rewrite !bool_decide_eq_false_2 by done.
  destruct (bool_decide (username = VUndefined)) eqn:E.
  - apply bool_decide_eq_true in E as ->.
    repeat split; try by simplify_map_eq.
    intros. by simplify_map_eq.
  - repeat split; try by simplify_map_eq.
    intros. by simplify_map_eq.
Qed.

Lemma check_pass v p s : conforms v p = true -> check v p s = (Ok tt, s).
Proof. unfold check. by intros ->. Qed.

Lemma check_fail v p s :
  conforms v p = false -> check v p s = (Throw MatchError, s).
Proof. unfold check. by intros ->. Qed.

(** The run of [tasks.insert], branch by branch. *)
Lemma tasks_insert_unfold this e text s :
  tasks_insert this e text s =
  if negb (is_String text) then (Throw MatchError, s)
  else if negb (truthy (userId_value this))
  then (Throw (MeteorError "not-authorized"), s)
  else match (users_findOne (userId_value this) s).1 with
       | Ok None | Throw _ => (Throw TypeError, s)
       | Ok (Some ud) =>
           match Tasks s !! random_id e with
           | Some _ => (Throw DuplicateKey, s)
           | None =>
               (Ok tt,
                Server (<[random_id e :=
                            <["_id" := VString (random_id e)]>
                              (object [("text", text);
                                       ("createdAt", VDate (now e));
                                       ("owner", userId_value this);
                                       ("username", get ud "username")])]>
                          (Tasks s))
                       (users s))
           end
       end.
Proof.
  unfold tasks_insert, bind, check. cbn [conforms].
  destruct (is_String text); cbn [negb]; [|done]. cbn [ret].
  destruct (truthy (userId_value this)); cbn [negb]; [|done]. cbn [ret].
  unfold users_findOne. cbn [fst].
  destruct (userId_value this) as [| | | |u|]; cbn [prop throw]; try done.
  destruct (users s !! u) as [ud|]; cbn [prop throw ret]; [|done].
  unfold Tasks_insert. by destruct (Tasks s !! random_id e).
Qed.

Lemma tasks_remove_unfold this taskId s :
  tasks_remove this taskId s =
  match taskId with
  | VString id => (Ok tt, Server (delete id (Tasks s)) (users s))
  | _ => (Throw MatchError, s)
  end.
Proof. by destruct taskId. Qed.

Lemma tasks_setChecked_unfold this taskId v s :
  tasks_setChecked this taskId v s =
  match taskId, v with
  | VString id, VBool b =>
      (Ok tt, Server (alter (<["checked" := VBool b]>) id (Tasks s)) (users s))
  | _, _ => (Throw MatchError, s)
  end.
Proof. by destruct taskId, v. Qed.

End Methods.

(** C2 (amended): a call to [tasks.insert] from a connection with no user
    id and a String argument fails with [Meteor.Error('not-authorized')];
    with an argument that is not a String it fails in [check] with a
    validation error instead.  Either way the store is unchanged. *)
Theorem insert_unauthenticated_fails (e : env) (s : server) (text : value) :
  (is_String text = true ->
   tasks_insert (Invocation None) e text s
   = (Throw (MeteorError "not-authorized"), s))
  /\ (is_String text = false ->
      tasks_insert (Invocation None) e text s = (Throw MatchError, s)).
Proof.
  split; intros H; rewrite tasks_insert_unfold, H; done.
Qed.

(** C3: for a String [text] and a caller logged in as [u] (a non-empty
    user id with a document in [Meteor.users]), [tasks.insert] with an
    unused drawn [_id] succeeds and adds exactly one record, under that
    [_id]: its [text] is the argument, its [owner] is [u], its [username]
    is the caller's, [checked] is unset, and [createdAt] is a date no later
    than the clock reading of the call; every other record and the user
    collection are as before. *)
Theorem insert_creates_one_record (s : server) (e : env) (u text : string)
    (ud : doc)
    (Hu : u <> "")
    (Hprofile : users s !! u = Some ud)
    (Hfresh : Tasks s !! random_id e = None) :
  exists (s' : server) (d : doc),
    tasks_insert (Invocation (Some u)) e (VString text) s = (Ok tt, s')
    /\ Tasks s' !! random_id e = Some d
    /\ get d "text" = VString text
    /\ get d "owner" = VString u
    /\ get d "username" = get ud "username"
    /\ d !! "checked" = None
    /\ (exists t : Z, get d "createdAt" = VDate t /\ t <= now e)
    /\ (forall id, id <> random_id e -> Tasks s' !! id = Tasks s !! id)
    /\ users s' = users s.
Proof.
  eexists _, _. rewrite tasks_insert_unfold.
  cbn [is_String negb userId_value userId truthy users_findOne fst].
  assert (String.eqb u "" = false) as -> by (by apply String.eqb_neq).
  cbn [negb]. rewrite Hprofile, Hfresh.
  pose proof (object_task_fields (VString text) (VString u)
                (get ud "username") (now e)) as Hobj.
  cbn zeta in Hobj.
  split; [reflexivity|]. cbn [Tasks users].
  split; [apply lookup_insert_eq|].
  unfold get in *.
  destruct (Hobj "checked" ltac:(done) ltac:(done)) as (Ht & Hc & Ho & Hn & Hrest).
  repeat split.
  - by rewrite lookup_insert_ne.
  - by rewrite lookup_insert_ne.
  - by rewrite lookup_insert_ne.
  - rewrite lookup_insert_ne by done. by apply Hrest.
  - exists (now e). split; [|lia]. by rewrite lookup_insert_ne.
  - intros id Hid. by rewrite lookup_insert_ne.
Qed.

(** C4: for a task [id] in the collection and a boolean [v],
    [tasks.setChecked(id, v)] succeeds; afterwards the record's [checked]
    is [v], each of its other fields is as before, and so is every other
    record. *)
Theorem setChecked_frame (this : invocation) (s : server) (id : string)
    (v : bool) (d : doc)
    (Hd : Tasks s !! id = Some d) :
  exists (s' : server) (d' : doc),
    tasks_setChecked this (VString id) (VBool v) s = (Ok tt, s')
    /\ Tasks s' !! id = Some d'
    /\ d' !! "checked" = Some (VBool v)
    /\ (forall f, f <> "checked" -> d' !! f = d !! f)
    /\ (forall id', id' <> id -> Tasks s' !! id' = Tasks s !! id')
    /\ users s' = users s.
Proof.
  eexists _, _. rewrite tasks_setChecked_unfold.
  split; [reflexivity|]. cbn [Tasks users].
  split; [by rewrite lookup_alter_eq, Hd|].
  split; [apply lookup_insert_eq|].
  split; [intros f Hf; by rewrite lookup_insert_ne|].
  split; [|done]. intros id' Hid. by rewrite lookup_alter_ne.
Qed.

(** C5: for a task [id] in the collection, [tasks.remove(id)] succeeds for
    any caller, logged in or not; afterwards that record is gone and every
    other record is as before. *)
Theorem remove_deletes_exactly (this : invocation) (s : server) (id : string)
    (d : doc)
    (Hd : Tasks s !! id = Some d) :
  exists s' : server,
    tasks_remove this (VString id) s = (Ok tt, s')
    /\ Tasks s' !! id = None
    /\ (forall id', id' <> id -> Tasks s' !! id' = Tasks s !! id')
    /\ users s' = users s.
Proof.
  eexists. rewrite tasks_remove_unfold.
  split; [reflexivity|]. cbn [Tasks users].
  split; [apply lookup_delete_eq|].
  split; [|done]. intros id' Hid. by rewrite lookup_delete_ne.
Qed.

(** C6: a method call whose argument is not of the type its [check]
    declares fails with a validation error, and the store is unchanged. *)
Theorem type_mismatch_rejected (this : invocation) (e : env) (s : server) :
  (forall text, is_String text = false ->
      tasks_insert this e text s = (Throw MatchError, s))
  /\ (forall taskId, is_String taskId = false ->
      tasks_remove this taskId s = (Throw MatchError, s))
  /\ (forall taskId v, is_String taskId = false \/ is_Boolean v = false ->
      tasks_setChecked this taskId v s = (Throw MatchError, s)).
Proof.
  split; [|split].
  - intros text H. by rewrite tasks_insert_unfold, H.
  - intros taskId H. rewrite tasks_remove_unfold. by destruct taskId.
  - intros taskId v H. rewrite tasks_setChecked_unfold.
    destruct taskId, v; try done; by destruct H.
Qed.

(** ** Sequences of calls *)

Section Sequences.

Implicit Types (s : server) (c : call) (cs : list call).

Lemma run_calls_cons c cs s :
  run_calls (c :: cs) s = run_calls cs (apply_call c s).2.
Proof. done. Qed.

(** What one call does to the record stored under [id]: nothing, or it
    creates it, or removes it, or writes its [checked]. *)
Lemma apply_call_lookup c s id :
  Tasks (apply_call c s).2 !! id = Tasks s !! id
  \/ (Tasks s !! id = None
      /\ exists d', Tasks (apply_call c s).2 !! id = Some d'
                    /\ d' !! "private" = None /\ d' !! "checked" = None)
  \/ (removes id c = true /\ Tasks (apply_call c s).2 !! id = None)
  \/ (exists b : bool,
        Tasks (apply_call c s).2 !! id
        = <["checked" := VBool b]> <$> Tasks s !! id).
Proof.
  destruct c as [this e text | this taskId | this taskId v]; cbn [apply_call].
  - rewrite tasks_insert_unfold.
    destruct (is_String text) eqn:Htext; cbn [negb]; [|by left].
    destruct (truthy (userId_value this)) eqn:Hu; cbn [negb]; [|by left].
    destruct (users_findOne (userId_value this) s).1 as [[ud|]|]; try by left.
    destruct (Tasks s !! random_id e) eqn:Hrid; [by left|].
    cbn [snd Tasks].
    destruct (decide (id = random_id e)) as [->|Hne];
      [|left; by rewrite lookup_insert_ne].
    right; left. split; [done|]. eexists. split; [apply lookup_insert_eq|].
    assert (text <> VUndefined) as Ht by (by destruct text).
    assert (userId_value this <> VUndefined) as Ho
      by (unfold userId_value; by destruct (userId this)).
    split; rewrite lookup_insert_ne by done;
      by apply (object_task_fields text (userId_value this)
                  (get ud "username") (now e)).
  - rewrite tasks_remove_unfold.
    destruct taskId as [| | | |id'|]; try by left.
    cbn [snd Tasks removes].
    destruct (decide (id' = id)) as [->|Hne].
    + right; right; left. split; [by apply bool_decide_eq_true|].
      apply lookup_delete_eq.
    + left. by rewrite lookup_delete_ne.
  - rewrite tasks_setChecked_unfold.
    destruct taskId as [| | | |id'|]; try by left.
    destruct v as [| |b| | |]; try by left.
    cbn [snd Tasks].
    destruct (decide (id' = id)) as [->|Hne].
    + right; right; right. exists b. apply lookup_alter_eq.
    + left. by rewrite lookup_alter_ne.
Qed.

(** A call that does not remove the record keeps it, with every field
    but [checked] as it was. *)
Lemma apply_call_keeps c s id (d : doc) :
  Tasks s !! id = Some d -> removes id c = false ->
  exists d' : doc, Tasks (apply_call c s).2 !! id = Some d'
                   /\ forall f, f <> "checked" -> d' !! f = d !! f.
Proof.
  intros Hd Hrm.
  destruct (apply_call_lookup c s id)
    as [H | [[H _] | [[H _] | [b H]]]]; try congruence.
  - exists d. split; [congruence|done].
  - rewrite Hd in H. eexists. split; [exact H|].
    intros f Hf. by rewrite lookup_insert_ne.
Qed.

(** One call leaves the [private] field of a record it keeps alone, and
    a record it creates has none. *)
Lemma apply_call_private c s id (d' : doc) :
  Tasks (apply_call c s).2 !! id = Some d' ->
  match Tasks s !! id with
  | Some d => d' !! "private" = d !! "private"
  | None => d' !! "private" = None
  end.
Proof.
  intros Hd'.
  destruct (apply_call_lookup c s id)
    as [H | [[H0 (d2 & H & Hp & _)] | [[_ H] | [b H]]]]; try congruence.
  - rewrite <- H, Hd'. done.
  - rewrite H0. congruence.
  - rewrite Hd' in H. destruct (Tasks s !! id) as [d|]; [|done].
    injection H as ->. by rewrite lookup_insert_ne.
Qed.

End Sequences.

(** C7: no call to one of the three methods modifies the [owner],
    [createdAt] or [username] of a record: a record stored before and after
    a call differs at most in [checked].  So through any sequence of calls
    that does not remove it, a record stays in the collection with its
    [owner], [createdAt] and [username] as they were, and with every field
    other than [checked] unchanged. *)
Theorem creation_fields_immutable :
  (forall (c : call) (s : server) (id : string) (d d' : doc),
      Tasks s !! id = Some d ->
      Tasks (apply_call c s).2 !! id = Some d' ->
      forall f, f <> "checked" -> d' !! f = d !! f)
  /\ (forall (cs : list call) (s : server) (id : string) (d : doc),
        Tasks s !! id = Some d ->
        existsb (removes id) cs = false ->
        exists d' : doc,
          Tasks (run_calls cs s) !! id = Some d'
          /\ d' !! "owner" = d !! "owner"
          /\ d' !! "createdAt" = d !! "createdAt"
          /\ d' !! "username" = d !! "username"
          /\ (forall f, f <> "checked" -> d' !! f = d !! f)).
Proof.
  split.
  - intros c s id d d' Hd Hd'.
    destruct (apply_call_lookup c s id)
      as [H | [[H _] | [[_ H] | [b H]]]]; [| congruence | congruence |].
    + rewrite H, Hd in Hd'. by injection Hd' as ->.
    + rewrite Hd, Hd' in H. injection H as ->.
      intros f Hf. by rewrite lookup_insert_ne.
  - intros cs s id d Hd Hkept.
    assert (exists d' : doc, Tasks (run_calls cs s) !! id = Some d'
              /\ forall f, f <> "checked" -> d' !! f = d !! f)
      as (d' & H & Hf).
    { revert s d Hd Hkept. induction cs as [|c cs IH]; intros s d Hd Hkept.
      - exists d. by split.
      - cbn [existsb] in Hkept. apply orb_false_iff in Hkept as [Hc Hcs].
        destruct (apply_call_keeps c s id d Hd Hc) as (d1 & Hd1 & Hf1).
        destruct (IH _ d1 Hd1 Hcs) as (d' & Hd' & Hf').
        exists d'. rewrite run_calls_cons. split; [done|].
        intros f Hf. by rewrite Hf', Hf1. }
    exists d'. repeat split; try done; by apply Hf.
Qed.

(** C10: no method sets or changes [private]: a call leaves the [private]
    field of every record it keeps as it was, and a record it creates has
    none.  So from a collection whose records have no [private] field (the
    empty one for instance), every record after any sequence of calls has
    none, and the publication hands it to every connection. *)
Theorem private_never_set :
  (forall (c : call) (s : server) (id : string) (d' : doc),
      Tasks (apply_call c s).2 !! id = Some d' ->
      match Tasks s !! id with
      | Some d => d' !! "private" = d !! "private"
      | None => d' !! "private" = None
      end)
  /\ (forall (cs : list call) (s : server),
        map_Forall (fun _ (d : doc) => d !! "private" = None) (Tasks s) ->
        forall (id : string) (d : doc),
          Tasks (run_calls cs s) !! id = Some d ->
          d !! "private" = None
          /\ forall this, tasksPublication this (run_calls cs s) !! id = Some d).
Proof.
  split; [exact apply_call_private|].
  intros cs s Hall id d Hd.
  assert (d !! "private" = None) as Hp.
  { revert s Hall Hd. induction cs as [|c cs IH]; intros s Hall Hd.
    - by apply (Hall id).
    - rewrite run_calls_cons in Hd. apply (IH (apply_call c s).2); [|done].
      intros id1 d1 Hd1. pose proof (apply_call_private c s id1 d1 Hd1) as H.
      destruct (Tasks s !! id1) as [d0|] eqn:E; [|done].
      rewrite H. by apply (Hall id1). }
  split; [done|]. intros this.
  apply published_not_private; [done|].
  unfold get. by rewrite Hp.
Qed.

(** ** Sorting by a field, descending *)

Section Sorting.

Lemma ascii_compare_refl (a : Ascii.ascii) : Ascii.compare a a = Eq.
Proof. unfold Ascii.compare. apply N.compare_refl. Qed.

Lemma string_leb_trans (a b c : string) :
  String.leb a b = true -> String.leb b c = true -> String.leb a c = true.
Proof.
  unfold String.leb. revert b c.
  induction a as [|x a IH]; intros [|y b] [|z c]; cbn [String.compare];
    try done.
  destruct (Ascii.compare x y) eqn:Exy; try done;
    destruct (Ascii.compare y z) eqn:Eyz; try done.
  - apply Ascii.compare_eq_iff in Exy as ->. rewrite Eyz. apply IH.
  - apply Ascii.compare_eq_iff in Exy as ->. by rewrite Eyz.
  - apply Ascii.compare_eq_iff in Eyz as <-. by rewrite Exy.
  - unfold Ascii.compare in *. rewrite N.compare_lt_iff in Exy, Eyz.
    assert (N.compare (Ascii.N_of_ascii x) (Ascii.N_of_ascii z) = Lt)
      as ->; [|done].
    apply N.compare_lt_iff. lia.
Qed.

Lemma value_le_total (a b : value) :
  value_le a b = true \/ value_le b a = true.
Proof.
  destruct a, b; cbn; try (by left); try (by right).
  - destruct b, b0; by (left + right).
  - lia.
  - apply String.leb_total.
  - lia.
Qed.

Lemma value_le_trans (a b c : value) :
  value_le a b = true -> value_le b c = true -> value_le a c = true.
Proof.
  destruct a, b, c; cbn; try done.
  - by destruct b, b0, b1.
  - lia.
  - apply string_leb_trans.
  - lia.
Qed.

Context (f : string).

#[local] Instance desc_rel_trans : Transitive (desc_rel f).
Proof.
  intros d1 d2 d3 H12 H23. unfold desc_rel, desc_by in *.
  by eapply value_le_trans.
Qed.

Lemma insert_desc_perm (d : doc) (l : list doc) : insert_desc f d l ≡ₚ d :: l.
Proof.
  induction l as [|e l IH]; cbn [insert_desc]; [done|].
  destruct (desc_by f d e); [done|]. rewrite IH. apply Permutation_swap.
Qed.

Lemma sort_desc_perm (l : list doc) : sort_desc f l ≡ₚ l.
Proof.
  induction l as [|d l IH]; [done|].
  cbn [sort_desc foldr]. rewrite insert_desc_perm. by f_equiv.
Qed.

Lemma insert_desc_sorted (d : doc) (l : list doc) :
  Sorted (desc_rel f) l -> Sorted (desc_rel f) (insert_desc f d l).
Proof.
  induction 1 as [|e l Hl IH He]; cbn [insert_desc].
  - by repeat constructor.
  - destruct (desc_by f d e) eqn:E.
    + by repeat constructor.
    + assert (desc_rel f e d) as Hed.
      { unfold desc_rel, desc_by in *.
        by destruct (value_le_total (get e f) (get d f)) as [H|H];
          [rewrite H in E|]. }
      constructor; [done|].
      destruct He as [|e' l' He']; cbn [insert_desc]; [by constructor|].
      destruct (desc_by f d e'); by constructor.
Qed.

Lemma sort_desc_sorted (l : list doc) : StronglySorted (desc_rel f) (sort_desc f l).
Proof.
  apply Sorted_StronglySorted; [apply _|].
  induction l as [|d l IH]; [constructor|].
  by apply insert_desc_sorted.
Qed.

End Sorting.

(** ** Client view *)

Section Client.

Lemma filter_bool_prop {A} (b : A -> bool) (P : A -> Prop)
    `{!forall x, Decision (P x)} (l : list A) :
  Forall (fun x => b x = true <-> P x) l -> List.filter b l = filter P l.
Proof.
  induction 1 as [|x l Hx _ IH]; [done|].
  cbn [List.filter]. rewrite filter_cons, IH.
  destruct (decide (P x)) as [HP|HP].
  - apply Hx in HP. by rewrite HP.
  - destruct (b x) eqn:E; [|done]. exfalso. by apply HP, Hx.
Qed.

Lemma StronglySorted_lookup {A} (R : relation A) (l : list A) i j x y :
  StronglySorted R l -> (i < j)%nat ->
  l !! i = Some x -> l !! j = Some y -> R x y.
Proof.
  intros Hl. revert i j.
  induction Hl as [|a l Hl IH Ha]; intros i j Hij Hi Hj; [done|].
  destruct j as [|j]; [lia|]. cbn in Hj.
  destruct i as [|i]; cbn in Hi.
  - injection Hi as ->. rewrite Forall_forall in Ha. apply Ha.
    by eapply list_elem_of_lookup_2.
  - apply (IH i j); [lia|done..].
Qed.

(** [{checked: {$ne: true}}] holds of the documents whose [checked] is
    absent or anything but [true]. *)
Lemma matches_not_checked (d : doc) :
  matches (SelNe "checked" (VBool true)) d = true
  <-> d !! "checked" <> Some (VBool true).
Proof.
  cbn [matches]. unfold field_eq, equal, get. cbn [nullish].
  rewrite negb_true_iff, bool_decide_eq_false.
  destruct (d !! "checked") as [v|]; cbn [default]; [|done].
  unfold id. split; intros H E; apply H; congruence.
Qed.

Lemma find_all (docs : list doc) : find SelAll docs = docs.
Proof.
  unfold find. induction docs as [|d docs IH]; [done|].
  simpl. by f_equal.
Qed.

(** With [checked] a boolean when present, [!task.checked] is
    [checked != true]. *)
Lemma not_checked_falsy (t : doc) :
  checked_is_boolean t = true ->
  negb (truthy (get t "checked")) = true
  <-> t !! "checked" <> Some (VBool true).
Proof.
  unfold checked_is_boolean, get.
  destruct (t !! "checked") as [[| |[]| | |]|]; cbn; done.
Qed.

End Client.

(** C8: the data container hands [App] the cached tasks, all of them,
    ordered by [createdAt] descending (for dates: a later position never
    has a later date); the number of cached tasks whose [checked] is not
    [true], those without a [checked] field included; and the current user:
    [null] when logged out, the user's document when logged in and the
    document is cached. *)
Theorem view_model_projections (c : client) :
  tasks (withTracker c) ≡ₚ cached_tasks c
  /\ StronglySorted (desc_rel "createdAt") (tasks (withTracker c))
  /\ (forall (i j : nat) (di dj : doc) (ti tj : Z),
        (i < j)%nat ->
        tasks (withTracker c) !! i = Some di ->
        tasks (withTracker c) !! j = Some dj ->
        get di "createdAt" = VDate ti -> get dj "createdAt" = VDate tj ->
        tj <= ti)
  /\ incompleteCount (withTracker c)
     = length (filter (fun d : doc => d !! "checked" <> Some (VBool true))
                 (cached_tasks c))
  /\ (client_userId c = None -> currentUser (withTracker c) = UserNull)
  /\ (forall (u : string) (ud : doc),
        u <> "" -> client_userId c = Some u -> cached_users c !! u = Some ud ->
        currentUser (withTracker c) = UserDoc ud).
Proof.
  cbn [withTracker tasks incompleteCount currentUser].
  unfold find_sorted_desc. rewrite find_all.
  split; [apply sort_desc_perm|].
  split; [apply sort_desc_sorted|].
  split.
  { intros i j di dj ti tj Hij Hi Hj Hti Htj.
    pose proof (StronglySorted_lookup _ _ _ _ _ _
                  (sort_desc_sorted "createdAt" (cached_tasks c)) Hij Hi Hj) as H.
    unfold desc_rel, desc_by in H. rewrite Hti, Htj in H.
    cbn in H. lia. }
  split.
  { unfold count, find. f_equal.
    apply filter_bool_prop, Forall_forall.
    intros d _. apply matches_not_checked. }
  unfold Meteor_user. split.
  - by intros ->.
  - intros u ud Hu -> ->. cbn [truthy].
    by assert (String.eqb u "" = false) as -> by (by apply String.eqb_neq).
Qed.

(** C9: [renderTasks] yields one element per task, in the order of the
    list: every task when the toggle is off, and when it is on those whose
    [checked] is not [true] ([checked] being a boolean when present).  An
    element's [showPrivateButton] is [task.owner === currentUserId]; with a
    current user whose [_id] is [u], that is: the task's owner is [u]. *)
Theorem renderTasks_rule (p : props) (hideCompleted : bool)
    (Htyped : forallb checked_is_boolean (tasks p) = true) :
  map task (renderTasks p hideCompleted)
  = (if hideCompleted
     then filter (fun t : doc => t !! "checked" <> Some (VBool true)) (tasks p)
     else tasks p)
  /\ Forall (fun el =>
              showPrivateButton el
              = strict_eq (get (task el) "owner") (currentUserId (currentUser p)))
       (renderTasks p hideCompleted)
  /\ (forall (ud : doc) (u : string),
        currentUser p = UserDoc ud -> get ud "_id" = VString u ->
        Forall (fun el =>
                  showPrivateButton el = true <-> get (task el) "owner" = VString u)
          (renderTasks p hideCompleted)).
Proof.
  unfold renderTasks. split; [|split].
  - rewrite map_map. cbn [task]. rewrite map_id.
    destruct hideCompleted; cbn [shown].
    + apply filter_bool_prop, Forall_forall. intros t Ht.
      apply not_checked_falsy.
      rewrite forallb_forall in Htyped. by apply Htyped, list_elem_of_In.
    + clear Htyped. induction (tasks p) as [|t l IH]; [done|].
      simpl. by f_equal.
  - apply Forall_forall. intros el Hel. apply list_elem_of_In in Hel.
    apply in_map_iff in Hel as (t & <- & _). done.
  - intros ud u Hcu Hid. apply Forall_forall. intros el Hel.
    apply list_elem_of_In in Hel.
    apply in_map_iff in Hel as (t & <- & _). cbn [showPrivateButton task].
    rewrite Hcu. cbn [currentUserId]. rewrite Hid.
    destruct (get t "owner") as [| | | |o|]; cbn [strict_eq]; try done.
    rewrite String.eqb_eq. split; congruence.
Qed.


(** * The theorems at sample inputs *)

Lemma publish_filter_visibility_sample :
  tasksPublication Sample.bob Sample.store !! "t1" = None
  /\ tasksPublication Sample.anonymous Sample.store !! "t1" = None
  /\ tasksPublication Sample.alice Sample.store !! "t1" = Some Sample.secret
  /\ tasksPublication Sample.anonymous Sample.store !! "t2" = Some Sample.errand.
Proof.
  assert (Tasks Sample.store !! "t1" = Some Sample.secret) as H1
    by (vm_compute; reflexivity).
  assert (Tasks Sample.store !! "t2" = Some Sample.errand) as H2
    by (vm_compute; reflexivity).
  destruct (publish_filter_visibility Sample.store "t1" Sample.secret H1)
    as [Hprivate _].
  destruct (publish_filter_visibility Sample.store "t2" Sample.errand H2)
    as [_ Hpublic].
  destruct (Hprivate "alice" ltac:(vm_compute; reflexivity)
              ltac:(vm_compute; reflexivity)) as [Hother Howner].
  split; [apply Hother; vm_compute; discriminate|].
  split; [apply Hother; vm_compute; discriminate|].
  split; [apply Howner; reflexivity|].
  apply Hpublic. vm_compute. discriminate.
Defined.

(** A logged-out call with a number for [text] is refused by [check],
    not as unauthorised. *)
Lemma insert_unauthenticated_number :
  (tasks_insert Sample.anonymous Sample.draw (VNumber 42) Sample.store).1
  = Throw MatchError
  /\ (tasks_insert Sample.anonymous Sample.draw (VNumber 42) Sample.store).1
     <> Throw (MeteorError "not-authorized").
Proof. split; [reflexivity | discriminate]. Qed.

Lemma insert_unauthenticated_fails_sample :
  tasks_insert Sample.anonymous Sample.draw (VString "buy milk") Sample.store
  = (Throw (MeteorError "not-authorized"), Sample.store)
  /\ tasks_insert Sample.anonymous Sample.draw VNull Sample.store
     = (Throw MatchError, Sample.store).
Proof.
  split.
  - apply (insert_unauthenticated_fails Sample.draw Sample.store
             (VString "buy milk")). reflexivity.
  - apply (insert_unauthenticated_fails Sample.draw Sample.store VNull).
    reflexivity.
Defined.

Lemma insert_creates_one_record_sample :
  exists (s' : server) (d : doc),
    tasks_insert Sample.alice Sample.draw (VString "buy milk") Sample.store
    = (Ok tt, s')
    /\ Tasks s' !! "t3" = Some d
    /\ get d "text" = VString "buy milk"
    /\ get d "owner" = VString "alice"
    /\ get d "username" = VString "alice"
    /\ d !! "checked" = None
    /\ (exists t : Z, get d "createdAt" = VDate t /\ t <= 3000)
    /\ (forall id, id <> "t3" -> Tasks s' !! id = Tasks Sample.store !! id)
    /\ users s' = users Sample.store.
Proof.
  apply (insert_creates_one_record Sample.store Sample.draw "alice" "buy milk"
           Sample.alice_user).
  - discriminate.
  - vm_compute; reflexivity.
  - vm_compute; reflexivity.
Defined.

Lemma setChecked_frame_sample :
  exists (s' : server) (d' : doc),
    tasks_setChecked Sample.bob (VString "t1") (VBool true) Sample.store
    = (Ok tt, s')
    /\ Tasks s' !! "t1" = Some d'
    /\ d' !! "checked" = Some (VBool true)
    /\ (forall f, f <> "checked" -> d' !! f = Sample.secret !! f)
    /\ (forall id', id' <> "t1" -> Tasks s' !! id' = Tasks Sample.store !! id')
    /\ users s' = users Sample.store.
Proof.
  apply (setChecked_frame Sample.bob Sample.store "t1" true Sample.secret).
  vm_compute; reflexivity.
Defined.

Lemma remove_deletes_exactly_sample :
  exists s' : server,
    tasks_remove Sample.anonymous (VString "t1") Sample.store = (Ok tt, s')
    /\ Tasks s' !! "t1" = None
    /\ (forall id', id' <> "t1" -> Tasks s' !! id' = Tasks Sample.store !! id')
    /\ users s' = users Sample.store.
Proof.
  apply (remove_deletes_exactly Sample.anonymous Sample.store "t1" Sample.secret).
  vm_compute; reflexivity.
Defined.

Lemma type_mismatch_rejected_sample :
  tasks_insert Sample.alice Sample.draw (VNumber 7) Sample.store
  = (Throw MatchError, Sample.store)
  /\ tasks_remove Sample.alice (VBool true) Sample.store
     = (Throw MatchError, Sample.store)
  /\ tasks_setChecked Sample.alice (VString "t1") (VString "yes") Sample.store
     = (Throw MatchError, Sample.store)
  /\ tasks_setChecked Sample.alice VNull (VBool true) Sample.store
     = (Throw MatchError, Sample.store).
Proof.
  destruct (type_mismatch_rejected Sample.alice Sample.draw Sample.store)
    as (Hins & Hrm & Hset).
  split; [apply Hins; reflexivity|].
  split; [apply Hrm; reflexivity|].
  split; apply Hset; [right | left]; reflexivity.
Defined.

Lemma creation_fields_immutable_sample :
  exists d' : doc,
    Tasks (run_calls [SetChecked Sample.anonymous (VString "t1") (VBool true);
                      Insert Sample.alice Sample.draw (VString "buy milk");
                      Remove Sample.bob (VString "t2")] Sample.store) !! "t1"
    = Some d'
    /\ d' !! "owner" = Sample.secret !! "owner"
    /\ d' !! "createdAt" = Sample.secret !! "createdAt"
    /\ d' !! "username" = Sample.secret !! "username"
    /\ (forall f, f <> "checked" -> d' !! f = Sample.secret !! f).
Proof.
  destruct creation_fields_immutable as [_ Hseq].
  apply Hseq.
  - vm_compute; reflexivity.
  - vm_compute; reflexivity.
Defined.

Lemma private_never_set_sample :
  exists d : doc,
    Tasks (run_calls [Insert Sample.alice Sample.draw (VString "buy milk");
                      SetChecked Sample.bob (VString "t3") (VBool true)]
             Sample.empty_store) !! "t3" = Some d
    /\ d !! "private" = None
    /\ tasksPublication Sample.anonymous
         (run_calls [Insert Sample.alice Sample.draw (VString "buy milk");
                     SetChecked Sample.bob (VString "t3") (VBool true)]
            Sample.empty_store) !! "t3" = Some d.
Proof.
  destruct private_never_set as [_ Hseq].
  set (cs := [Insert Sample.alice Sample.draw (VString "buy milk");
              SetChecked Sample.bob (VString "t3") (VBool true)]).
  destruct (Tasks (run_calls cs Sample.empty_store) !! "t3") as [d|] eqn:E;
    [|vm_compute in E; discriminate].
  exists d. split; [reflexivity|].
  destruct (Hseq cs Sample.empty_store (map_Forall_empty _) "t3" d E)
    as [Hp Hpub].
  split; [exact Hp | apply Hpub].
Defined.

Lemma view_model_projections_sample :
  tasks (withTracker Sample.browser) ≡ₚ [Sample.secret; Sample.errand]
  /\ incompleteCount (withTracker Sample.browser)
     = length (filter (fun d : doc => d !! "checked" <> Some (VBool true))
                 [Sample.secret; Sample.errand])
  /\ currentUser (withTracker Sample.browser) = UserDoc Sample.alice_user.
Proof.
  destruct (view_model_projections Sample.browser)
    as (Hperm & _ & _ & Hcount & _ & Huser).
  split; [exact Hperm|]. split; [exact Hcount|].
  apply (Huser "alice").
  - discriminate.
  - reflexivity.
  - vm_compute; reflexivity.
Defined.

Lemma renderTasks_rule_sample :
  map task (renderTasks (withTracker Sample.browser) true)
  = filter (fun t : doc => t !! "checked" <> Some (VBool true))
      (tasks (withTracker Sample.browser)).
Proof.
  apply (renderTasks_rule (withTracker Sample.browser) true).
  vm_compute; reflexivity.
Defined.

(** ** Runs on the sample data *)

Example sample_sorted_by_date :
  map (fun d => get d "_id") (tasks (withTracker Sample.browser))
  = [VString "t2"; VString "t1"].
Proof. vm_compute; reflexivity. Qed.

Example sample_incomplete_count :
  incompleteCount (withTracker Sample.browser) = 1%nat.
Proof. vm_compute; reflexivity. Qed.

Example sample_render_hidden :
  map (fun el => (key el, showPrivateButton el))
    (renderTasks (withTracker Sample.browser) true)
  = [(VString "t1", true)].
Proof. vm_compute; reflexivity. Qed.

Example sample_insert_without_profile :
  tasks_insert Sample.bob Sample.draw (VString "buy milk") Sample.store
  = (Throw TypeError, Sample.store).
Proof. vm_compute; reflexivity. Qed.

Example sample_insert_id_in_use :
  tasks_insert Sample.alice (Env 3000 "t1") (VString "buy milk") Sample.store
  = (Throw DuplicateKey, Sample.store).
Proof. vm_compute; reflexivity. Qed.

(** Insert as alice, then check the task off: it is published to alice
    with [checked] unset and shown under "hide completed" until it is
    checked. *)
Example sample_buy_milk :
  let s1 := run_calls [Insert Sample.alice Sample.draw (VString "Buy milk")]
              Sample.empty_store in
  let s2 := run_calls [SetChecked Sample.alice (VString "t3") (VBool true)] s1 in
  (fun d => get d "checked") <$> tasksPublication Sample.alice s1 !! "t3"
  = Some VUndefined
  /\ shown true <$> tasksPublication Sample.alice s1 !! "t3" = Some true
  /\ shown true <$> tasksPublication Sample.alice s2 !! "t3" = Some false.
Proof. vm_compute. repeat split. Qed.

(** * Further properties of the method layer *)

Section MethodEdges.

Implicit Types (s : server) (this : invocation) (e : env).

Lemma server_eta s : Server (Tasks s) (users s) = s.
Proof. by destruct s. Qed.

Lemma apply_call_users (c : call) s : users (apply_call c s).2 = users s.
Proof.
  destruct c as [this e text | this taskId | this taskId v]; cbn [apply_call].
  - rewrite tasks_insert_unfold.
    destruct (negb (is_String text)); [done|].
    destruct (negb (truthy (userId_value this))); [done|].
    destruct (users_findOne (userId_value this) s).1 as [[ud|]|]; try done.
    by destruct (Tasks s !! random_id e).
  - rewrite tasks_remove_unfold. by destruct taskId.
  - rewrite tasks_setChecked_unfold. by destruct taskId, v.
Qed.

(** A record that a call leaves in place is as before, or as before with
    a boolean written to [checked]. *)
Lemma apply_call_kept (c : call) s id (d d' : doc) :
  Tasks s !! id = Some d ->
  Tasks (apply_call c s).2 !! id = Some d' ->
  d' = d \/ exists b : bool, d' = <["checked" := VBool b]> d.
Proof.
  intros Hd Hd'.
  destruct (apply_call_lookup c s id)
    as [H | [[H _] | [[_ H] | [b H]]]]; [| congruence | congruence |].
  - left. congruence.
  - right. exists b. rewrite Hd, Hd' in H. by injection H.
Qed.

(** A record that a call brings into the collection comes from a
    successful [tasks.insert]. *)
Lemma apply_call_created (c : call) s id (d' : doc) :
  Tasks s !! id = None ->
  Tasks (apply_call c s).2 !! id = Some d' ->
  exists this e (text u : string) (ud : doc),
    c = Insert this e (VString text)
    /\ random_id e = id /\ userId this = Some u /\ u <> ""
    /\ users s !! u = Some ud
    /\ d' = <["_id" := VString id]>
              (object [("text", VString text); ("createdAt", VDate (now e));
                       ("owner", VString u); ("username", get ud "username")]).
Proof.
  intros Hnone Hd'.
  destruct c as [this e text | this taskId | this taskId v];
    cbn [apply_call] in Hd'.
  - rewrite tasks_insert_unfold in Hd'.
    destruct text as [| | | |text|]; cbn [is_String negb] in Hd';
      try (cbn [snd] in Hd'; congruence).
    destruct this as [[u|]]; cbn [userId_value userId truthy negb] in Hd';
      [|cbn [snd] in Hd'; congruence].
    destruct (String.eqb u "") eqn:Hu; cbn [negb] in Hd'; [cbn [snd] in Hd'; congruence|].
    cbn [users_findOne fst] in Hd'.
    destruct (users s !! u) as [ud|] eqn:Hud; [|cbn [snd] in Hd'; congruence].
    destruct (Tasks s !! random_id e) eqn:Hrid; [cbn [snd] in Hd'; congruence|].
    cbn [snd Tasks] in Hd'.
    destruct (decide (random_id e = id)) as [Heq|Hne].
    + rewrite Heq, lookup_insert_eq in Hd'. injection Hd' as <-.
      exists (Invocation (Some u)), e, text, u, ud.
      apply String.eqb_neq in Hu. by rewrite Heq.
    + rewrite lookup_insert_ne in Hd' by done. congruence.
  - rewrite tasks_remove_unfold in Hd'.
    destruct taskId as [| | | |id'|]; try (cbn [snd] in Hd'; congruence).
    cbn [snd Tasks] in Hd'.
    destruct (decide (id' = id)) as [->|Hne].
    + by rewrite lookup_delete_eq in Hd'.
    + rewrite lookup_delete_ne in Hd' by done. congruence.
  - rewrite tasks_setChecked_unfold in Hd'.
    destruct taskId as [| | | |id'|]; try (cbn [snd] in Hd'; congruence).
    destruct v as [| |b| | |]; try (cbn [snd] in Hd'; congruence).
    cbn [snd Tasks] in Hd'.
    destruct (decide (id' = id)) as [->|Hne].
    + by rewrite lookup_alter_eq, Hnone in Hd'.
    + rewrite lookup_alter_ne in Hd' by done. congruence.
Qed.

(** An invariant of the stored records that every call keeps holds after
    any sequence of calls. *)
Lemma run_calls_invariant (P : server -> Prop) :
  (forall c s, P s -> P (apply_call c s).2) ->
  forall cs s, P s -> P (run_calls cs s).
Proof.
  intros Hstep cs. induction cs as [|c cs IH]; intros s Hs; [done|].
  rewrite run_calls_cons. by apply IH, Hstep.
Qed.

End MethodEdges.

(** X1: a caller logged in under a user id that has no document in
    [Meteor.users] cannot insert: reading [.username] of the missing
    document throws, and the store is unchanged. *)
Theorem insert_without_profile_fails (s : server) (e : env) (u text : string)
    (Hu : u <> "")
    (Hnone : users s !! u = None) :
  tasks_insert (Invocation (Some u)) e (VString text) s = (Throw TypeError, s).
Proof.
  rewrite tasks_insert_unfold.
  cbn [is_String negb userId_value userId truthy users_findOne fst].
  assert (String.eqb u "" = false) as -> by (by apply String.eqb_neq).
  cbn [negb]. by rewrite Hnone.
Qed.

(** X2: [tasks.insert] never replaces, changes or removes a record that
    is already stored, whatever its arguments and whatever [_id] is drawn;
    when the drawn [_id] is in use the store is left exactly as it was. *)
Theorem insert_keeps_existing (this : invocation) (e : env) (text : value)
    (s : server) :
  (forall (id : string) (d : doc),
      Tasks s !! id = Some d ->
      Tasks (tasks_insert this e text s).2 !! id = Some d)
  /\ (is_Some (Tasks s !! random_id e) ->
      (tasks_insert this e text s).2 = s).
Proof.
  rewrite tasks_insert_unfold.
  destruct (negb (is_String text)); [by split|].
  destruct (negb (truthy (userId_value this))); [by split|].
  destruct (users_findOne (userId_value this) s).1 as [[ud|]|]; try by split.
  destruct (Tasks s !! random_id e) as [d0|] eqn:Hrid; [by split|].
  split.
  - intros id d Hd. cbn [snd Tasks].
    rewrite lookup_insert_ne; [done|]. intros <-. congruence.
  - by intros [? ?].
Qed.

(** X3: [tasks.remove] of an id that is not stored succeeds and changes
    nothing. *)
Theorem remove_missing_is_noop (this : invocation) (s : server) (id : string)
    (Hnone : Tasks s !! id = None) :
  tasks_remove this (VString id) s = (Ok tt, s).
Proof.
  rewrite tasks_remove_unfold, delete_id by done. by rewrite server_eta.
Qed.

(** X4: [tasks.setChecked] on an id that is not stored succeeds and
    changes nothing: the update does not create a record. *)
Theorem setChecked_missing_is_noop (this : invocation) (s : server)
    (id : string) (v : bool)
    (Hnone : Tasks s !! id = None) :
  tasks_setChecked this (VString id) (VBool v) s = (Ok tt, s).
Proof.
  rewrite tasks_setChecked_unfold, alter_id' by done. by rewrite server_eta.
Qed.

(** X5: of two [tasks.setChecked] calls on the same id the last one
    wins: the store is the one the second call alone would leave. *)
Theorem setChecked_last_write_wins (this1 this2 : invocation) (s : server)
    (id : string) (v1 v2 : bool) :
  tasks_setChecked this2 (VString id) (VBool v2)
    (tasks_setChecked this1 (VString id) (VBool v1) s).2
  = tasks_setChecked this2 (VString id) (VBool v2) s.
Proof.
  rewrite !tasks_setChecked_unfold. cbn [snd Tasks users].
  do 2 f_equal. rewrite alter_alter_eq.
  apply alter_ext. intros d _. cbn. apply insert_insert_eq.
Qed.

(** X6: removing the record a successful [tasks.insert] has just created
    gives back the store as it was before the insert. *)
Theorem insert_then_remove_restores (this' : invocation) (s : server) (e : env)
    (u text : string) (ud : doc)
    (Hu : u <> "")
    (Hprofile : users s !! u = Some ud)
    (Hfresh : Tasks s !! random_id e = None) :
  tasks_remove this' (VString (random_id e))
    (tasks_insert (Invocation (Some u)) e (VString text) s).2
  = (Ok tt, s).
Proof.
  rewrite tasks_remove_unfold, tasks_insert_unfold.
  cbn [is_String negb userId_value userId truthy users_findOne fst].
  assert (String.eqb u "" = false) as -> by (by apply String.eqb_neq).
  cbn [negb]. rewrite Hprofile, Hfresh. cbn [snd Tasks users].
  rewrite delete_insert_id by done. by rewrite server_eta.
Qed.

(** X7: no sequence of method calls changes [Meteor.users]. *)
Theorem methods_leave_users (cs : list call) (s : server) :
  users (run_calls cs s) = users s.
Proof.
  apply (run_calls_invariant (fun s' => users s' = users s)); [|done].
  intros c s' Hs'. by rewrite apply_call_users.
Qed.

Section Shapes.

Lemma get_set_checked_ne (d : doc) (b : bool) (f : string) :
  f <> "checked" -> get (<["checked" := VBool b]> d) f = get d f.
Proof. intros Hf. unfold get. by rewrite lookup_insert_ne. Qed.

Lemma method_made_set_checked (d : doc) (b : bool) :
  Shape.method_made d = true ->
  Shape.method_made (<["checked" := VBool b]> d) = true.
Proof.
  unfold Shape.method_made, checked_is_boolean.
  rewrite !get_set_checked_ne by done.
  rewrite lookup_insert_eq, lookup_insert_ne by done.
  rewrite !andb_true_iff. cbn [is_Boolean].
  intros [Hrest _]. by split.
Qed.

Lemma method_made_created (id text u : string) (t : Z) (username : value) :
  u <> "" ->
  Shape.method_made
    (<["_id" := VString id]>
       (object [("text", VString text); ("createdAt", VDate t);
                ("owner", VString u); ("username", username)])) = true.
Proof.
  intros Hu.
  pose proof (object_task_fields (VString text) (VString u) username t)
    as Hobj. cbn zeta in Hobj.
  destruct (Hobj "private" ltac:(done) ltac:(done)) as (Ht & Hc & Ho & _ & Hp).
  destruct (Hobj "checked" ltac:(done) ltac:(done)) as (_ & _ & _ & _ & Hk).
  unfold Shape.method_made, checked_is_boolean.
  assert (forall (d : doc) f, f <> "_id" ->
            get (<["_id" := VString id]> d) f = get d f) as Hget.
  { intros d f Hf. unfold get. by rewrite lookup_insert_ne. }
  rewrite !Hget, Ht, Hc, Ho by done.
  rewrite !lookup_insert_ne by done.
  rewrite Hp, Hk by done.
  cbn [is_String Shape.is_Date truthy andb].
  apply String.eqb_neq in Hu. rewrite Hu.
  by rewrite bool_decide_eq_true_2.
Qed.

End Shapes.

(** X8: the methods keep [_id] and key together: if every stored task
    carries the id it is stored under as its [_id], so does every stored
    task after any sequence of calls. *)
Theorem ids_stay_consistent (cs : list call) (s : server)
    (Hall : map_Forall Shape.id_matches (Tasks s)) :
  map_Forall Shape.id_matches (Tasks (run_calls cs s)).
Proof.
  revert Hall.
  apply (run_calls_invariant
           (fun s' => map_Forall Shape.id_matches (Tasks s'))).
  clear s. intros c s Hall id d' Hd'.
  destruct (Tasks s !! id) as [d|] eqn:Hd.
  - destruct (apply_call_kept c s id d d' Hd Hd') as [-> | [b ->]].
    + by apply Hall.
    + unfold Shape.id_matches. rewrite get_set_checked_ne by done.
      by apply Hall.
  - destruct (apply_call_created c s id d' Hd Hd')
      as (this & e & text & u & ud & _ & _ & _ & _ & _ & ->).
    unfold Shape.id_matches, get. by rewrite lookup_insert_eq.
Qed.

(** X9: the methods only make and keep well-shaped tasks: if every stored
    task has a String [text], a Date [createdAt], a non-empty String
    [owner], no [private] and a [checked] that is a boolean when present,
    the same holds after any sequence of calls (in particular for every
    task of a collection that started empty). *)
Theorem method_made_invariant (cs : list call) (s : server)
    (Hall : map_Forall (fun _ d => Shape.method_made d = true) (Tasks s)) :
  map_Forall (fun _ d => Shape.method_made d = true) (Tasks (run_calls cs s)).
Proof.
  revert Hall.
  apply (run_calls_invariant
           (fun s' => map_Forall (fun _ d => Shape.method_made d = true)
                        (Tasks s'))).
  clear s. intros c s Hall id d' Hd'. cbn beta.
  destruct (Tasks s !! id) as [d|] eqn:Hd.
  - destruct (apply_call_kept c s id d d' Hd Hd') as [-> | [b ->]].
    + by apply (Hall id).
    + apply method_made_set_checked. by apply (Hall id).
  - destruct (apply_call_created c s id d' Hd Hd')
      as (this & e & text & u & ud & _ & _ & _ & Hu & _ & ->).
    by apply method_made_created.
Qed.

(** * Further properties of the publication *)

Section PublicationEdges.

Implicit Types (s : server) (this : invocation) (d : doc).

(** The selector of the publication, as a condition on the record. *)
Lemma matches_tasks_selector_iff this d :
  matches (tasks_selector this) d = true
  <-> get d "private" <> VBool true
      \/ match userId this with
         | Some u => get d "owner" = VString u
         | None => nullish (get d "owner") = true
         end.
Proof.
  rewrite matches_tasks_selector, orb_true_iff, negb_true_iff.
  assert (field_eq d "private" (VBool true) = false
          <-> get d "private" <> VBool true) as ->.
  { rewrite <- not_true_iff_false. by rewrite field_eq_true_iff. }
  unfold userId_value. destruct (userId this) as [u|].
  - by rewrite field_eq_true_iff.
  - done.
Qed.

Lemma matches_tasks_selector_set_checked this d (b : bool) :
  matches (tasks_selector this) (<["checked" := VBool b]> d)
  = matches (tasks_selector this) d.
Proof.
  rewrite !matches_tasks_selector. unfold field_eq.
  by rewrite !get_set_checked_ne.
Qed.

End PublicationEdges.

(** X10: a record is published to a connection exactly when it is stored
    and its [private] is not [true], or the connection is logged in as its
    [owner], or the connection is logged out and the record has no owner
    ([owner] absent or [null]); the published document is the stored
    one. *)
Theorem publication_exactly (this : invocation) (s : server) (id : string)
    (d : doc) :
  tasksPublication this s !! id = Some d
  <-> Tasks s !! id = Some d
      /\ (get d "private" <> VBool true
          \/ match userId this with
             | Some u => get d "owner" = VString u
             | None => nullish (get d "owner") = true
             end).
Proof.
  rewrite published_lookup, <- matches_tasks_selector_iff.
  destruct (Tasks s !! id) as [d0|]; cbn [mbind option_bind].
  - destruct (matches (tasks_selector this) d0) eqn:E.
    + split; [intros [= ->]; by split | by intros [? _]].
    + split; [done|]. intros [[= ->] Hm]. congruence.
  - split; [done | by intros [? _]].
Qed.

(** X11: [tasks.setChecked] never changes who is sent which task: for
    every connection the published ids are the same before and after the
    call, whoever makes it and whatever its arguments. *)
Theorem setChecked_keeps_visibility (caller conn : invocation)
    (taskId v : value) (s : server) :
  dom (tasksPublication conn (tasks_setChecked caller taskId v s).2)
  = dom (tasksPublication conn s).
Proof.
  apply set_eq. intros id. rewrite !elem_of_dom, !published_lookup.
  rewrite tasks_setChecked_unfold.
  destruct taskId as [| | | |id'|]; try done.
  destruct v as [| |b| | |]; try done.
  cbn [snd Tasks].
  destruct (decide (id' = id)) as [->|Hne];
    [|by rewrite lookup_alter_ne].
  rewrite lookup_alter_eq.
  destruct (Tasks s !! id) as [d|]; cbn [fmap option_fmap option_map mbind option_bind];
    [|done].
  rewrite matches_tasks_selector_set_checked.
  by destruct (matches (tasks_selector conn) d).
Qed.

(** X12: a task a caller is not sent can still be changed and deleted by
    that caller: for a private task owned by [a] and a caller who is not
    logged in as [a], the publication withholds the task, yet the caller's
    [tasks.setChecked] writes its [checked] and the caller's
    [tasks.remove] deletes it. *)
Theorem withheld_task_is_writable (this : invocation) (s : server)
    (id a : string) (d : doc)
    (Hd : Tasks s !! id = Some d)
    (Hprivate : get d "private" = VBool true)
    (Howner : get d "owner" = VString a)
    (Hother : userId this <> Some a) :
  tasksPublication this s !! id = None
  /\ (forall v : bool,
        Tasks (tasks_setChecked this (VString id) (VBool v) s).2 !! id
        = Some (<["checked" := VBool v]> d))
  /\ Tasks (tasks_remove this (VString id) s).2 !! id = None.
Proof.
  split; [|split].
  - rewrite published_lookup, Hd. cbn [mbind option_bind].
    destruct (matches (tasks_selector this) d) eqn:E; [|done].
    apply matches_tasks_selector_iff in E as [E|E]; [done|].
    destruct (userId this) as [u|]; [congruence|].
    by rewrite Howner in E.
  - intros v. rewrite tasks_setChecked_unfold. cbn [snd Tasks].
    by rewrite lookup_alter_eq, Hd.
  - rewrite tasks_remove_unfold. cbn [snd Tasks]. apply lookup_delete_eq.
Qed.

(** * The repository's test *)

(** X13: the test "can delete owned task" passes from every state of the
    server, for every user id, clock reading and drawn task id: after
    [beforeEach] and the [tasks.remove] handler, the count is 0 and the
    collection is empty. *)
Theorem can_delete_owned_task_passes (userId : string) (e : env) (s : server) :
  TasksTest.run_test userId e s = (Ok true, Server ∅ (users s)).
Proof.
  unfold TasksTest.run_test, TasksTest.beforeEach, bind at 1 2.
  cbn [TasksTest.Tasks_remove_all]. unfold Tasks_insert at 1.
  cbn [Tasks users]. rewrite lookup_empty.
  unfold TasksTest.can_delete_owned_task, bind.
  rewrite tasks_remove_unfold. cbn [Tasks users TasksTest.Tasks_count ret].
  rewrite delete_insert_id by apply lookup_empty.
  by rewrite map_size_empty.
Qed.

(** * Further properties of the client *)

Section ClientEdges.

Lemma filter_length_perm {A} (f : A -> bool) (l1 l2 : list A) :
  l1 ≡ₚ l2 -> length (List.filter f l1) = length (List.filter f l2).
Proof.
  induction 1 as [|x l1 l2 _ IH|x y l|l1 l2 l3 _ IH1 _ IH2]; cbn [List.filter].
  - done.
  - destruct (f x); cbn [length]; by rewrite IH.
  - by destruct (f x), (f y).
  - by rewrite IH1.
Qed.

Lemma filter_length_le {A} (f g : A -> bool) (l : list A) :
  (forall x, f x = true -> g x = true) ->
  (length (List.filter f l) <= length (List.filter g l))%nat.
Proof.
  intros Hfg. induction l as [|x l IH]; [done|]. cbn [List.filter].
  destruct (f x) eqn:Ef.
  - rewrite (Hfg x Ef). cbn [length]. lia.
  - destruct (g x); cbn [length]; lia.
Qed.

Lemma filter_length_eq {A} (f g : A -> bool) (l : list A) :
  Forall (fun x => f x = g x) l ->
  length (List.filter f l) = length (List.filter g l).
Proof.
  induction 1 as [|x l Hx _ IH]; [done|]. cbn [List.filter].
  rewrite Hx. destruct (g x); cbn [length]; by rewrite IH.
Qed.

Lemma NoDup_map_filter {A B} `{EqDecision B} (g : A -> B) (f : A -> bool)
    (l : list A) :
  NoDup (map g l) -> NoDup (map g (List.filter f l)).
Proof.
  induction l as [|x l IH]; [done|]. cbn [map List.filter].
  rewrite NoDup_cons. intros [Hx Hl].
  destruct (f x); cbn [map]; [|by apply IH].
  apply NoDup_cons. split; [|by apply IH].
  intros Hin. apply Hx.
  apply list_elem_of_In, in_map_iff in Hin as (y & Hy & Hin).
  apply filter_In in Hin as [Hin _].
  apply list_elem_of_In, in_map_iff. eauto.
Qed.

Lemma rendered_length (p : props) (hide : bool) :
  length (renderTasks p hide) = length (List.filter (shown hide) (tasks p)).
Proof. unfold renderTasks. by rewrite length_map. Qed.

Lemma withTracker_tasks_perm (c : client) :
  tasks (withTracker c) ≡ₚ cached_tasks c.
Proof.
  cbn [withTracker tasks]. unfold find_sorted_desc.
  rewrite find_all. apply sort_desc_perm.
Qed.

Lemma handle_all_app this (evs1 evs2 : list Component.event)
    (st : Component.local) :
  Component.handle_all this (evs1 ++ evs2) st
  = let '(st1, sent1) := Component.handle_all this evs1 st in
    let '(st2, sent2) := Component.handle_all this evs2 st1 in
    (st2, sent1 ++ sent2).
Proof.
  revert st. induction evs1 as [|ev evs1 IH]; intros st.
  - cbn [app Component.handle_all].
    by destruct (Component.handle_all this evs2 st).
  - cbn [app Component.handle_all].
    destruct (Component.handle this ev st) as [st1 sent1].
    rewrite IH.
    destruct (Component.handle_all this evs1 st1) as [st2 sent2].
    destruct (Component.handle_all this evs2 st2) as [st3 sent3].
    by rewrite app_assoc.
Qed.

End ClientEdges.

(** X14: the number in the header and the list under "hide completed":
    the list never has more entries than [incompleteCount], and has
    exactly that many when every cached task's [checked] is a boolean or
    absent. *)
Theorem hidden_list_within_count (c : client) :
  (length (renderTasks (withTracker c) true)
   <= incompleteCount (withTracker c))%nat
  /\ (forallb checked_is_boolean (cached_tasks c) = true ->
      length (renderTasks (withTracker c) true)
      = incompleteCount (withTracker c)).
Proof.
  rewrite rendered_length.
  rewrite (filter_length_perm _ _ _ (withTracker_tasks_perm c)).
  cbn [withTracker incompleteCount]. unfold count, find. split.
  - apply filter_length_le. intros d Hd.
    apply matches_not_checked. intros Hc.
    unfold shown, get in Hd. by rewrite Hc in Hd.
  - intros Htyped. apply filter_length_eq, Forall_forall. intros d Hd.
    rewrite forallb_forall in Htyped.
    pose proof (not_checked_falsy d (Htyped d (proj1 (list_elem_of_In _ _) Hd)))
      as H1.
    pose proof (matches_not_checked d) as H2. cbn [shown].
    destruct (negb (truthy (get d "checked"))),
      (matches (SelNe "checked" (VBool true)) d); try done.
    + symmetry. by apply H2, H1.
    + by apply H1, H2.
Qed.

(** X15: the React keys are distinct: when the cached tasks have pairwise
    different [_id]s, so have the rendered elements, with the toggle on or
    off. *)
Theorem rendered_keys_distinct (c : client) (hide : bool)
    (Hids : NoDup (map (fun d : doc => get d "_id") (cached_tasks c))) :
  NoDup (map key (renderTasks (withTracker c) hide)).
Proof.
  unfold renderTasks. rewrite map_map. cbn [key].
  apply (NoDup_map_filter (fun d : doc => get d "_id")).
  assert (map (fun d : doc => get d "_id") (tasks (withTracker c))
          ≡ₚ map (fun d : doc => get d "_id") (cached_tasks c)) as ->
    by apply Permutation_map, withTracker_tasks_perm.
  done.
Qed.

(** X16: the component only ever calls [tasks.insert], with a String:
    whatever the user types, clicks and submits, each call sent is a
    [tasks.insert] of a string on the client's connection, so the server
    never answers one with a validation error. *)
Theorem component_calls_pass_check (this : invocation)
    (evs : list Component.event) (st : Component.local) :
  Forall (fun c =>
            (exists (e : env) (t : string), c = Insert this e (VString t))
            /\ forall s, (apply_call c s).1 <> Throw MatchError)
    (Component.handle_all this evs st).2.
Proof.
  revert st. induction evs as [|ev evs IH]; intros st;
    cbn [Component.handle_all]; [by constructor|].
  specialize (IH (Component.handle this ev st).1).
  destruct (Component.handle this ev st) as [st1 sent1] eqn:Hev.
  cbn [fst] in IH.
  destruct (Component.handle_all this evs st1) as [st2 sent2].
  cbn [snd] in *. apply Forall_app. split; [|done].
  destruct ev as [value| |e]; cbn [Component.handle] in Hev;
    injection Hev as <- <-; [by constructor..|].
  constructor; [|by constructor]. split; [by eexists _, _|].
  intros s. cbn [Component.handleSubmit apply_call].
  rewrite tasks_insert_unfold. cbn [is_String negb].
  destruct (negb (truthy (userId_value this))); [done|].
  destruct (users_findOne (userId_value this) s).1 as [[ud|]|]; try done.
  by destruct (Tasks s !! random_id e).
Qed.

(** X17: the form and the login test of [tasks.insert] agree: when the
    form is rendered (the client has a current user object), a submit on
    that client's connection is answered neither with [not-authorized] nor
    with a validation error. *)
Theorem rendered_form_submits_as_user (c : client) (st : Component.local)
    (e : env) (s : server)
    (Hform : Component.form_rendered (withTracker c) = true) :
  (apply_call (Component.handleSubmit st (Invocation (client_userId c)) e) s).1
  <> Throw (MeteorError "not-authorized")
  /\ (apply_call (Component.handleSubmit st (Invocation (client_userId c)) e)
        s).1
     <> Throw MatchError.
Proof.
  unfold Component.form_rendered in Hform.
  cbn [withTracker currentUser] in Hform. unfold Meteor_user in Hform.
  destruct (client_userId c) as [u|]; [|done].
  destruct (truthy (VString u)) eqn:Hu; [|done].
  cbn [Component.handleSubmit apply_call].
  rewrite tasks_insert_unfold.
  cbn [is_String negb userId_value userId]. rewrite Hu. cbn [negb].
  destruct (users_findOne (VString u) s).1 as [[ud|]|]; try done.
  by destruct (Tasks s !! random_id e).
Qed.

(** X18: a submit does not clear or change the draft: after any events,
    two submits in a row send the same text, the one the draft held, and
    leave the local state as it was. *)
Theorem submit_keeps_draft (this : invocation) (evs : list Component.event)
    (st : Component.local) (e1 e2 : env) :
  Component.handle_all this (evs ++ [Component.Submitted e1;
                                     Component.Submitted e2]) st
  = ((Component.handle_all this evs st).1,
     (Component.handle_all this evs st).2
     ++ [Insert this e1
           (VString (Component.text (Component.handle_all this evs st).1));
         Insert this e2
           (VString (Component.text (Component.handle_all this evs st).1))]).
Proof.
  rewrite handle_all_app.
  by destruct (Component.handle_all this evs st) as [st1 sent1].
Qed.

Section SettledSubscription.

(** With a settled subscription every rendered task satisfies the
    publication's selector for the connection. *)
Lemma rendered_task_published (c : client) (this : invocation) (s : server)
    (hide : bool) (el : element) :
  Subscription.in_sync c this s ->
  el ∈ renderTasks (withTracker c) hide ->
  showPrivateButton el
  = strict_eq (get (task el) "owner") (currentUserId (currentUser (withTracker c)))
  /\ (get (task el) "private" <> VBool true
      \/ match client_userId c with
         | Some u => get (task el) "owner" = VString u
         | None => nullish (get (task el) "owner") = true
         end).
Proof.
  intros [Hcache Huid] Hel. unfold renderTasks in Hel.
  apply list_elem_of_In, in_map_iff in Hel as (t & <- & Hin).
  cbn [task showPrivateButton]. split; [done|].
  apply filter_In in Hin as [Hin _]. apply list_elem_of_In in Hin.
  rewrite (withTracker_tasks_perm c), Hcache in Hin.
  unfold Subscription.published_docs in Hin.
  apply list_elem_of_fmap in Hin as ([id d] & -> & Hin). cbn [snd].
  apply elem_of_map_to_list in Hin.
  rewrite published_lookup in Hin.
  destruct (Tasks s !! id) as [d0|]; cbn [mbind option_bind] in Hin; [|done].
  destruct (matches (tasks_selector this) d0) eqn:E; [|done].
  injection Hin as <-. rewrite Huid. by apply matches_tasks_selector_iff.
Qed.

End SettledSubscription.

(** X19: with a settled subscription the page shows no private task of
    someone else: every rendered task has a [private] that is not [true],
    or is owned by the client's user, or (on a logged-out client) has no
    owner. *)
Theorem rendered_tasks_are_published (c : client) (this : invocation)
    (s : server) (hide : bool)
    (Hsync : Subscription.in_sync c this s) :
  Forall (fun el =>
            get (task el) "private" <> VBool true
            \/ match client_userId c with
               | Some u => get (task el) "owner" = VString u
               | None => nullish (get (task el) "owner") = true
               end)
    (renderTasks (withTracker c) hide).
Proof.
  apply Forall_forall. intros el Hel.
  by destruct (rendered_task_published c this s hide el Hsync Hel).
Qed.

(** X20: with a settled subscription and the logged-in user's document
    cached under its own [_id], every private task on the page carries the
    private button: it can only be one of the user's own. *)
Theorem private_tasks_show_button (c : client) (this : invocation)
    (s : server) (hide : bool) (u : string) (ud : doc)
    (Hsync : Subscription.in_sync c this s)
    (Hu : client_userId c = Some u)
    (Hne : u <> "")
    (Hdoc : cached_users c !! u = Some ud)
    (Hid : get ud "_id" = VString u) :
  Forall (fun el =>
            get (task el) "private" = VBool true -> showPrivateButton el = true)
    (renderTasks (withTracker c) hide).
Proof.
  apply Forall_forall. intros el Hel Hprivate.
  destruct (rendered_task_published c this s hide el Hsync Hel)
    as [-> [Hpub | Hown]]; [done|].
  rewrite Hu in Hown. rewrite Hown.
  cbn [withTracker currentUser]. unfold Meteor_user. rewrite Hu, Hdoc.
  cbn [truthy]. apply String.eqb_neq in Hne. rewrite Hne.
  cbn [negb currentUserId]. rewrite Hid. cbn [strict_eq].
  apply String.eqb_refl.
Qed.

(** * The further properties at sample inputs *)

Lemma insert_without_profile_fails_sample :
  tasks_insert Sample.bob Sample.draw (VString "buy milk") Sample.store
  = (Throw TypeError, Sample.store).
Proof.
  apply (insert_without_profile_fails Sample.store Sample.draw "bob" "buy milk").
  - discriminate.
  - vm_compute; reflexivity.
Defined.

Lemma insert_keeps_existing_sample :
  Tasks (tasks_insert Sample.alice Sample.draw (VString "buy milk")
           Sample.store).2 !! "t1" = Some Sample.secret
  /\ (tasks_insert Sample.alice (Env 3000 "t1") (VString "buy milk")
        Sample.store).2 = Sample.store.
Proof.
  split.
  - apply (insert_keeps_existing Sample.alice Sample.draw (VString "buy milk")
             Sample.store). vm_compute; reflexivity.
  - apply (insert_keeps_existing Sample.alice (Env 3000 "t1")
             (VString "buy milk") Sample.store).
    exists Sample.secret. vm_compute; reflexivity.
Defined.

Lemma remove_missing_is_noop_sample :
  tasks_remove Sample.anonymous (VString "t9") Sample.store
  = (Ok tt, Sample.store).
Proof.
  apply (remove_missing_is_noop Sample.anonymous Sample.store "t9").
  vm_compute; reflexivity.
Defined.

Lemma setChecked_missing_is_noop_sample :
  tasks_setChecked Sample.bob (VString "t9") (VBool true) Sample.store
  = (Ok tt, Sample.store).
Proof.
  apply (setChecked_missing_is_noop Sample.bob Sample.store "t9" true).
  vm_compute; reflexivity.
Defined.

Lemma insert_then_remove_restores_sample :
  tasks_remove Sample.anonymous (VString "t3")
    (tasks_insert Sample.alice Sample.draw (VString "buy milk")
       Sample.store).2
  = (Ok tt, Sample.store).
Proof.
  apply (insert_then_remove_restores Sample.anonymous Sample.store Sample.draw
           "alice" "buy milk" Sample.alice_user).
  - discriminate.
  - vm_compute; reflexivity.
  - vm_compute; reflexivity.
Defined.

Lemma ids_stay_consistent_sample :
  map_Forall Shape.id_matches
    (Tasks (run_calls [Insert Sample.alice Sample.draw (VString "buy milk");
                       SetChecked Sample.bob (VString "t1") (VBool true)]
              Sample.store)).
Proof.
  apply ids_stay_consistent.
  intros id d Hd. unfold Sample.store in Hd. cbn [Tasks] in Hd.
  apply lookup_insert_Some in Hd as [[<- <-] | [_ Hd]];
    [vm_compute; reflexivity|].
  apply lookup_insert_Some in Hd as [[<- <-] | [_ Hd]];
    [vm_compute; reflexivity|].
  by rewrite lookup_empty in Hd.
Defined.

Lemma method_made_invariant_sample :
  map_Forall (fun _ d => Shape.method_made d = true)
    (Tasks (run_calls [Insert Sample.alice Sample.draw (VString "buy milk");
                       SetChecked Sample.bob (VString "t3") (VBool true)]
              Sample.empty_store)).
Proof.
  apply method_made_invariant. apply map_Forall_empty.
Defined.

Lemma withheld_task_is_writable_sample :
  tasksPublication Sample.bob Sample.store !! "t1" = None
  /\ (forall v : bool,
        Tasks (tasks_setChecked Sample.bob (VString "t1") (VBool v)
                 Sample.store).2 !! "t1"
        = Some (<["checked" := VBool v]> Sample.secret))
  /\ Tasks (tasks_remove Sample.bob (VString "t1") Sample.store).2 !! "t1"
     = None.
Proof.
  apply (withheld_task_is_writable Sample.bob Sample.store "t1" "alice"
           Sample.secret).
  - vm_compute; reflexivity.
  - vm_compute; reflexivity.
  - vm_compute; reflexivity.
  - vm_compute; discriminate.
Defined.

Lemma hidden_list_within_count_sample :
  length (renderTasks (withTracker Sample.browser) true)
  = incompleteCount (withTracker Sample.browser).
Proof.
  apply (hidden_list_within_count Sample.browser). vm_compute; reflexivity.
Defined.

Lemma rendered_keys_distinct_sample :
  NoDup (map key (renderTasks (withTracker Sample.browser) true))
  /\ NoDup (map key (renderTasks (withTracker Sample.browser) false)).
Proof.
  assert (NoDup (map (fun d : doc => get d "_id")
                   (cached_tasks Sample.browser))) as Hids.
  { apply (bool_decide_unpack _). vm_compute. exact I. }
  split; apply rendered_keys_distinct; exact Hids.
Defined.

Lemma rendered_form_submits_as_user_sample :
  (apply_call (Component.handleSubmit Component.initial
                 (Invocation (client_userId Sample.browser)) Sample.draw)
     Sample.store).1
  <> Throw (MeteorError "not-authorized")
  /\ (apply_call (Component.handleSubmit Component.initial
                    (Invocation (client_userId Sample.browser)) Sample.draw)
        Sample.store).1
     <> Throw MatchError.
Proof.
  apply (rendered_form_submits_as_user Sample.browser Component.initial
           Sample.draw Sample.store).
  vm_compute; reflexivity.
Defined.

Lemma sample_browser_in_sync :
  Subscription.in_sync Sample.browser Sample.alice Sample.store.
Proof.
  split; [|reflexivity].
  apply (bool_decide_unpack _). vm_compute. exact I.
Qed.

Lemma rendered_tasks_are_published_sample :
  Forall (fun el =>
            get (task el) "private" <> VBool true
            \/ match client_userId Sample.browser with
               | Some u => get (task el) "owner" = VString u
               | None => nullish (get (task el) "owner") = true
               end)
    (renderTasks (withTracker Sample.browser) false).
Proof.
  apply (rendered_tasks_are_published Sample.browser Sample.alice Sample.store).
  exact sample_browser_in_sync.
Defined.

Lemma private_tasks_show_button_sample :
  Forall (fun el =>
            get (task el) "private" = VBool true -> showPrivateButton el = true)
    (renderTasks (withTracker Sample.browser) false).
Proof.
  apply (private_tasks_show_button Sample.browser Sample.alice Sample.store
           false "alice" Sample.alice_user).
  - exact sample_browser_in_sync.
  - reflexivity.
  - discriminate.
  - vm_compute; reflexivity.
  - vm_compute; reflexivity.
Defined.

(** * Which records a call can touch *)

(** X21: the stored ids after a call.  [tasks.setChecked] never adds or
    removes a record; [tasks.remove] takes away at most the id it is given;
    [tasks.insert] removes nothing and adds at most the drawn id. *)
Theorem stored_ids_after_call (this : invocation) (e : env) (s : server) :
  (forall taskId v,
      dom (Tasks (tasks_setChecked this taskId v s).2) = dom (Tasks s))
  /\ (forall taskId,
        dom (Tasks (tasks_remove this taskId s).2)
        = match taskId with
          | VString id => dom (Tasks s) ∖ {[id]}
          | _ => dom (Tasks s)
          end)
  /\ (forall text,
        dom (Tasks s) ⊆ dom (Tasks (tasks_insert this e text s).2)
        /\ dom (Tasks (tasks_insert this e text s).2)
           ⊆ dom (Tasks s) ∪ {[random_id e]}).
Proof.
  split; [|split].
  - intros taskId v. rewrite tasks_setChecked_unfold.
    destruct taskId as [| | | |id|]; try done.
    destruct v as [| |b| | |]; try done.
    cbn [snd Tasks]. apply set_eq. intros id'.
    rewrite !elem_of_dom, lookup_alter. case_decide; [subst|done].
    by rewrite <- !not_eq_None_Some, fmap_None.
  - intros taskId. rewrite tasks_remove_unfold.
    destruct taskId as [| | | |id|]; try done.
    cbn [snd Tasks]. apply dom_delete_L.
  - intros text. rewrite tasks_insert_unfold.
    assert (dom (Tasks s) ⊆ dom (Tasks s)
            /\ dom (Tasks s) ⊆ dom (Tasks s) ∪ {[random_id e]}) as Hsame
      by (split; [done | apply union_subseteq_l]).
    destruct (negb (is_String text)); [exact Hsame|].
    destruct (negb (truthy (userId_value this))); [exact Hsame|].
    destruct (users_findOne (userId_value this) s).1 as [[ud|]|];
      [|exact Hsame..].
    destruct (Tasks s !! random_id e); [exact Hsame|].
    cbn [snd Tasks]. rewrite dom_insert_L.
    split; [apply union_subseteq_r | by rewrite (comm_L (∪))].
Qed.

(** X22: calls from logged-out connections never create a record: after
    any sequence of such calls every stored id was stored before. *)
Theorem logged_out_calls_create_nothing (cs : list call) (s : server)
    (Hout : forallb Calls.logged_out cs = true) :
  dom (Tasks (run_calls cs s)) ⊆ dom (Tasks s).
Proof.
  revert s. induction cs as [|c cs IH]; intros s; [done|].
  cbn [forallb] in Hout. apply andb_true_iff in Hout as [Hc Hcs].
  rewrite run_calls_cons. etrans; [by apply IH|].
  intros id. rewrite !elem_of_dom. intros [d' Hd'].
  destruct (Tasks s !! id) as [d|] eqn:Hd; [by eexists|].
  destruct (apply_call_created c s id d' Hd Hd')
    as (this & e & text & u & ud & -> & _ & Hu & Hne & _).
  unfold Calls.logged_out in Hc. cbn [Calls.caller] in Hc.
  unfold userId_value in Hc. rewrite Hu in Hc. cbn [truthy] in Hc.
  apply String.eqb_neq in Hne. by rewrite Hne in Hc.
Qed.

(** X23: a record can only come into the collection through a successful
    [tasks.insert], and then it is attributed to the caller: if an id is
    not stored before a call and is stored after it, the call is a
    [tasks.insert] of a String by a logged-in caller that drew this id, and
    the new record's [owner] is the caller's user id, its [text] the
    argument, its [createdAt] the clock reading and its [_id] the id. *)
Theorem created_only_by_insert (c : call) (s : server) (id : string)
    (d' : doc)
    (Hnone : Tasks s !! id = None)
    (Hd' : Tasks (apply_call c s).2 !! id = Some d') :
  exists (this : invocation) (e : env) (text u : string),
    c = Insert this e (VString text)
    /\ random_id e = id
    /\ userId this = Some u
    /\ get d' "owner" = VString u
    /\ get d' "text" = VString text
    /\ get d' "createdAt" = VDate (now e)
    /\ get d' "_id" = VString id.
Proof.
  destruct (apply_call_created c s id d' Hnone Hd')
    as (this & e & text & u & ud & Hc & Hid & Hu & _ & _ & ->).
  exists this, e, text, u.
  pose proof (object_task_fields (VString text) (VString u)
                (get ud "username") (now e)) as Hobj. cbn zeta in Hobj.
  destruct (Hobj "checked" ltac:(done) ltac:(done)) as (Ht & Hcr & Ho & _ & _).
  unfold get in *.
  repeat split; try done; try by rewrite lookup_insert_ne.
  by rewrite lookup_insert_eq.
Qed.

Lemma logged_out_calls_create_nothing_sample :
  dom (Tasks (run_calls [Insert Sample.anonymous Sample.draw (VString "x");
                         Remove Sample.anonymous (VString "t2");
                         SetChecked Sample.anonymous (VString "t1") (VBool true)]
                Sample.store))
  ⊆ dom (Tasks Sample.store).
Proof.
  apply logged_out_calls_create_nothing. vm_compute; reflexivity.
Defined.

Lemma created_only_by_insert_sample :
  exists (this : invocation) (e : env) (text u : string),
    Insert Sample.alice Sample.draw (VString "buy milk")
    = Insert this e (VString text)
    /\ random_id e = "t3"
    /\ userId this = Some u
    /\ get (<["_id" := VString "t3"]>
              (object [("text", VString "buy milk"); ("createdAt", VDate 3000);
                       ("owner", VString "alice");
                       ("username", VString "alice")])) "owner" = VString u
    /\ get (<["_id" := VString "t3"]>
              (object [("text", VString "buy milk"); ("createdAt", VDate 3000);
                       ("owner", VString "alice");
                       ("username", VString "alice")])) "text" = VString text
    /\ get (<["_id" := VString "t3"]>
              (object [("text", VString "buy milk"); ("createdAt", VDate 3000);
                       ("owner", VString "alice");
                       ("username", VString "alice")])) "createdAt"
       = VDate (now e)
    /\ get (<["_id" := VString "t3"]>
              (object [("text", VString "buy milk"); ("createdAt", VDate 3000);
                       ("owner", VString "alice");
                       ("username", VString "alice")])) "_id" = VString "t3".
Proof.
  apply (created_only_by_insert
           (Insert Sample.alice Sample.draw (VString "buy milk"))
           Sample.store "t3").
  - vm_compute; reflexivity.
  - vm_compute; reflexivity.
Defined.
